(** * go-chart: style cascade, text wrapping and annotation series

    A shallow embedding of [style.go], [text.go] and [annotation_series.go]
    of package [chart], with the properties of the style cascade
    ([Style.InheritFrom]), of the zero test and the diagnostic string of a
    [Style], of the text wrapping functions ([Text.WrapFit],
    [Text.WrapFitWord], [Text.WrapFitRune]) and of the visibility gate of
    [AnnotationSeries.Measure] and [AnnotationSeries.Render].

    Conventions of the embedding:
    - Go [int] is [Z]; where the source does arithmetic on it the 64-bit
      wrap-around is written out ([int_add], [int_sub]).
    - Go [float64] is [spec_float] (the IEEE 754 values of the Standard
      Library): signed zeros, infinities, NaN and finite values.  The source
      only compares floats with [0] and copies them.
    - Go [string] is [string] (a sequence of bytes).  [for _, c := range s]
      decodes UTF-8 ([runes]) and [string(c)] encodes it ([string_of_rune]).
    - A slice is [option (list A)]: [None] is the nil slice.
    - A [Renderer] is an object with hidden mutable state: the code that
      drives it is written in a state monad over that state and the log of
      calls made on it. *)

From Stdlib Require Import ZArith List String Ascii Bool Lia DecimalString.
From Stdlib Require Import Floats.SpecFloat.
From stdpp Require Import base list.

Import ListNotations.
Local Open Scope string_scope.
Local Open Scope list_scope.
Local Open Scope Z_scope.

(** ** Machine integers and floats *)

(** Go [int] on a 64-bit platform: results of arithmetic wrap. *)
Definition int_wrap (z : Z) : Z := (z + 2 ^ 63) mod 2 ^ 64 - 2 ^ 63.
Definition int_add (a b : Z) : Z := int_wrap (a + b).
Definition int_sub (a b : Z) : Z := int_wrap (a - b).

(** [math.MaxInt32] *)
Definition MaxInt32 : Z := 2147483647.

Definition float64 : Type := spec_float.

(** The literal [0] at type [float64]. *)
Definition float_zero : float64 := S754_zero false.

(** [x == 0] on [float64]: true of both signed zeros, false of NaN. *)
Definition float_eq0 (x : float64) : bool := SFeqb x float_zero.

(** [x != 0] *)
Definition float_ne0 (x : float64) : bool := negb (float_eq0 x).

(** [x >= 0] on [float64]: false of NaN. *)
Definition float_ge0 (x : float64) : bool := SFleb float_zero x.

(** ** Slices *)

Definition slice (A : Type) : Type := option (list A).

Definition len {A : Type} (s : slice A) : nat :=
  match s with
  | None => 0%nat
  | Some l => length l
  end.

Definition elems {A : Type} (s : slice A) : list A :=
  match s with
  | None => []
  | Some l => l
  end.

(** ** Box *)

(** [Box] is declared in [box.go]; the four edges are the fields the three
    files read and write ([Box{Top: .., Left: .., Right: .., Bottom: ..}]). *)
Record Box : Type := mkBox {
  Top : Z;
  Left : Z;
  Right : Z;
  Bottom : Z
}.

(** [Box{}] *)
Definition Box_zero : Box := mkBox 0 0 0 0.

(** ** What the three files import

    Declarations of package [chart] and of its dependencies ([drawing],
    [truetype], [fmt]) that the three files use and that are defined
    elsewhere.  They are taken as parameters. *)
Class Imports : Type := {
  (** [drawing.Color], its zero value [drawing.Color{}], its zero test, its
      string form, and [drawing.ColorTransparent] *)
  drawing_Color : Type;
  Color_zero : drawing_Color;
  Color_IsZero : drawing_Color -> bool;
  Color_String : drawing_Color -> string;
  ColorTransparent : drawing_Color;
  (** [truetype.Font] (the object a [*truetype.Font] points to) and
      [Font.Name(truetype.NameIDFontFamily)] *)
  truetype_Font : Type;
  Font_FamilyName : truetype_Font -> string;
  (** methods of [Box] *)
  Box_IsZero : Box -> bool;
  Box_String : Box -> string;
  Box_Width : Box -> Z;
  (** constants of [defaults.go] *)
  DefaultStrokeWidth : float64;
  DefaultFontSize : float64;
  DefaultAnnotationFillColor : drawing_Color;
  DefaultAnnotationFontSize : float64;
  DefaultAnnotationPadding : Box;
  (** [fmt.Sprintf("%0.2f", v)] (the same text as ["%.2f"]) *)
  Sprintf_f2 : float64 -> string;
  (** the [Range] interface and its [Translate] method *)
  Range : Type;
  Range_Translate : Range -> float64 -> Z;
  (** [YAxisType] *)
  YAxisType : Type;
  (** [MinInt(a, b)] and [MaxInt(a, b)] *)
  MinInt : Z -> Z -> Z;
  MaxInt : Z -> Z -> Z
}.

(** ** Enumerations of [text.go]

    [textHorizontalAlign], [textVerticalAlign] and [textWrap] are all
    declared as [int]: any integer is a value of the type. *)
Definition textHorizontalAlign : Type := Z.
Definition TextHorizontalAlignUnset : textHorizontalAlign := 0.
Definition TextHorizontalAlignLeft : textHorizontalAlign := 1.
Definition TextHorizontalAlignCenter : textHorizontalAlign := 2.
Definition TextHorizontalAlignRight : textHorizontalAlign := 3.

Definition textWrap : Type := Z.
Definition TextWrapUnset : textWrap := 0.
Definition TextWrapNone : textWrap := 1.
Definition TextWrapWord : textWrap := 2.
Definition TextWrapRune : textWrap := 3.

Definition textVerticalAlign : Type := Z.
Definition TextVerticalAlignUnset : textVerticalAlign := 0.
Definition TextVerticalAlignBaseline : textVerticalAlign := 1.
Definition TextVerticalAlignBottom : textVerticalAlign := 2.
Definition TextVerticalAlignMiddle : textVerticalAlign := 3.
Definition TextVerticalAlignMiddleBaseline : textVerticalAlign := 4.
Definition TextVerticalAlignTop : textVerticalAlign := 5.

(** ** Style *)

Section StyleModel.
Context `{Imports}.

Record Style : Type := mkStyle {
  Show : bool;
  Padding : Box;
  StrokeWidth : float64;
  StrokeColor : drawing_Color;
  StrokeDashArray : slice float64;
  FillColor : drawing_Color;
  FontSize : float64;
  FontColor : drawing_Color;
  Font : option truetype_Font;
  TextHorizontalAlign : textHorizontalAlign;
  TextVerticalAlign : textVerticalAlign;
  TextWrap : textWrap
}.

(** [Style{}] *)
Definition Style_zero : Style :=
  {| Show := false;
     Padding := Box_zero;
     StrokeWidth := float_zero;
     StrokeColor := Color_zero;
     StrokeDashArray := None;
     FillColor := Color_zero;
     FontSize := float_zero;
     FontColor := Color_zero;
     Font := None;
     TextHorizontalAlign := TextHorizontalAlignUnset;
     TextVerticalAlign := TextVerticalAlignUnset;
     TextWrap := TextWrapUnset |}.

(** [s.Font == nil] *)
Definition Font_is_nil (f : option truetype_Font) : bool :=
  match f with
  | None => true
  | Some _ => false
  end.

(** [Style.IsZero] *)
Definition Style_IsZero (s : Style) : bool :=
  Color_IsZero (StrokeColor s) && Color_IsZero (FillColor s)
  && float_eq0 (StrokeWidth s) && Color_IsZero (FontColor s)
  && float_eq0 (FontSize s) && Font_is_nil (Font s).

(** The accessors take their defaults as a variadic argument: the list of
    the arguments passed.  [len(defaults) > 0] selects [defaults[0]]. *)
Definition first_or {A : Type} (defaults : list A) (builtin : A) : A :=
  match defaults with
  | d :: _ => d
  | [] => builtin
  end.

Definition GetStrokeColor (s : Style) (defaults : list drawing_Color) : drawing_Color :=
  if Color_IsZero (StrokeColor s) then first_or defaults ColorTransparent
  else StrokeColor s.

Definition GetFillColor (s : Style) (defaults : list drawing_Color) : drawing_Color :=
  if Color_IsZero (FillColor s) then first_or defaults ColorTransparent
  else FillColor s.

Definition GetStrokeWidth (s : Style) (defaults : list float64) : float64 :=
  if float_eq0 (StrokeWidth s) then first_or defaults DefaultStrokeWidth
  else StrokeWidth s.

Definition GetStrokeDashArray (s : Style) (defaults : list (slice float64)) : slice float64 :=
  if (len (StrokeDashArray s) =? 0)%nat then first_or defaults None
  else StrokeDashArray s.

Definition GetFontSize (s : Style) (defaults : list float64) : float64 :=
  if float_eq0 (FontSize s) then first_or defaults DefaultFontSize
  else FontSize s.

Definition GetFontColor (s : Style) (defaults : list drawing_Color) : drawing_Color :=
  if Color_IsZero (FontColor s) then first_or defaults ColorTransparent
  else FontColor s.

Definition GetFont (s : Style) (defaults : list (option truetype_Font)) : option truetype_Font :=
  if Font_is_nil (Font s) then first_or defaults None
  else Font s.

Definition GetPadding (s : Style) (defaults : list Box) : Box :=
  if Box_IsZero (Padding s) then first_or defaults Box_zero
  else Padding s.

Definition GetTextHorizontalAlign (s : Style) (defaults : list textHorizontalAlign)
  : textHorizontalAlign :=
  if TextHorizontalAlign s =? TextHorizontalAlignUnset
  then first_or defaults TextHorizontalAlignLeft
  else TextHorizontalAlign s.

Definition GetTextVerticalAlign (s : Style) (defaults : list textVerticalAlign)
  : textVerticalAlign :=
  if TextVerticalAlign s =? TextVerticalAlignUnset
  then first_or defaults TextVerticalAlignBaseline
  else TextVerticalAlign s.

Definition GetTextWrap (s : Style) (defaults : list textWrap) : textWrap :=
  if TextWrap s =? TextWrapUnset then first_or defaults TextWrapWord
  else TextWrap s.

(** [Style.InheritFrom].  The named result [final] starts as the zero
    [Style]; the body assigns every field but [Show], which stays [false]. *)
Definition InheritFrom (s defaults : Style) : Style :=
  {| Show := false;
     StrokeColor := GetStrokeColor s [StrokeColor defaults];
     StrokeWidth := GetStrokeWidth s [StrokeWidth defaults];
     StrokeDashArray := GetStrokeDashArray s [StrokeDashArray defaults];
     FillColor := GetFillColor s [FillColor defaults];
     FontColor := GetFontColor s [FontColor defaults];
     FontSize := GetFontSize s [FontSize defaults];
     Font := GetFont s [Font defaults];
     Padding := GetPadding s [Padding defaults];
     TextHorizontalAlign := GetTextHorizontalAlign s [TextHorizontalAlign defaults];
     TextVerticalAlign := GetTextVerticalAlign s [TextVerticalAlign defaults];
     TextWrap := GetTextWrap s [TextWrap defaults] |}.

(** "Own value if set, else the default": the shape of every accessor when
    it is given one default. *)
Definition coalesce {A : Type} (unset : A -> bool) (own default : A) : A :=
  if unset own then default else own.

(** Every attribute of the style is unset: the three colours are zero, the
    two floats are [0], the dash array is empty, there is no font, the padding
    is zero and the three enumerations are unset. *)
Definition all_unset (s : Style) : bool :=
  Style_IsZero s && Box_IsZero (Padding s) && (len (StrokeDashArray s) =? 0)%nat
  && (TextHorizontalAlign s =? TextHorizontalAlignUnset)
  && (TextVerticalAlign s =? TextVerticalAlignUnset)
  && (TextWrap s =? TextWrapUnset).

(** [d] with [Show] cleared. *)
Definition without_Show (d : Style) : Style :=
  {| Show := false;
     Padding := Padding d;
     StrokeWidth := StrokeWidth d;
     StrokeColor := StrokeColor d;
     StrokeDashArray := StrokeDashArray d;
     FillColor := FillColor d;
     FontSize := FontSize d;
     FontColor := FontColor d;
     Font := Font d;
     TextHorizontalAlign := TextHorizontalAlign d;
     TextVerticalAlign := TextVerticalAlign d;
     TextWrap := TextWrap d |}.

(** What C4 says the cascade of a zero style over [d] is: every attribute of
    [d] resolved by [d]'s own accessor with no default given, which falls to
    the built-in constant where [d] leaves the attribute unset. *)
Definition resolved_by_builtins (d : Style) : Style :=
  {| Show := false;
     Padding := GetPadding d [];
     StrokeWidth := GetStrokeWidth d [];
     StrokeColor := GetStrokeColor d [];
     StrokeDashArray := GetStrokeDashArray d [];
     FillColor := GetFillColor d [];
     FontSize := GetFontSize d [];
     FontColor := GetFontColor d [];
     Font := GetFont d [];
     TextHorizontalAlign := GetTextHorizontalAlign d [];
     TextVerticalAlign := GetTextVerticalAlign d [];
     TextWrap := GetTextWrap d [] |}.

(** [Style.GetStrokeOptions] *)
Definition GetStrokeOptions (s : Style) : Style :=
  {| Show := false;
     Padding := Box_zero;
     StrokeWidth := StrokeWidth s;
     StrokeColor := StrokeColor s;
     StrokeDashArray := StrokeDashArray s;
     FillColor := Color_zero;
     FontSize := float_zero;
     FontColor := Color_zero;
     Font := None;
     TextHorizontalAlign := TextHorizontalAlignUnset;
     TextVerticalAlign := TextVerticalAlignUnset;
     TextWrap := TextWrapUnset |}.

(** [Style.GetFillOptions] *)
Definition GetFillOptions (s : Style) : Style :=
  {| Show := false;
     Padding := Box_zero;
     StrokeWidth := float_zero;
     StrokeColor := Color_zero;
     StrokeDashArray := None;
     FillColor := FillColor s;
     FontSize := float_zero;
     FontColor := Color_zero;
     Font := None;
     TextHorizontalAlign := TextHorizontalAlignUnset;
     TextVerticalAlign := TextVerticalAlignUnset;
     TextWrap := TextWrapUnset |}.

(** [Style.GetFillAndStrokeOptions] *)
Definition GetFillAndStrokeOptions (s : Style) : Style :=
  {| Show := false;
     Padding := Box_zero;
     StrokeWidth := StrokeWidth s;
     StrokeColor := StrokeColor s;
     StrokeDashArray := StrokeDashArray s;
     FillColor := FillColor s;
     FontSize := float_zero;
     FontColor := Color_zero;
     Font := None;
     TextHorizontalAlign := TextHorizontalAlignUnset;
     TextVerticalAlign := TextVerticalAlignUnset;
     TextWrap := TextWrapUnset |}.

(** [Style.GetTextOptions] *)
Definition GetTextOptions (s : Style) : Style :=
  {| Show := false;
     Padding := Box_zero;
     StrokeWidth := float_zero;
     StrokeColor := Color_zero;
     StrokeDashArray := None;
     FillColor := Color_zero;
     FontSize := FontSize s;
     FontColor := FontColor s;
     Font := Font s;
     TextHorizontalAlign := TextHorizontalAlign s;
     TextVerticalAlign := TextVerticalAlign s;
     TextWrap := TextWrap s |}.

(** Every attribute of the style but [Show] is set: no accessor falls back
    to a default. *)
Definition all_set (s : Style) : bool :=
  negb (Color_IsZero (StrokeColor s)) && negb (Color_IsZero (FillColor s))
  && negb (float_eq0 (StrokeWidth s)) && negb (Color_IsZero (FontColor s))
  && negb (float_eq0 (FontSize s)) && negb (Font_is_nil (Font s))
  && negb (Box_IsZero (Padding s)) && negb (len (StrokeDashArray s) =? 0)%nat
  && negb (TextHorizontalAlign s =? TextHorizontalAlignUnset)
  && negb (TextVerticalAlign s =? TextVerticalAlignUnset)
  && negb (TextWrap s =? TextWrapUnset).

End StyleModel.

(** ** Strings, runes and UTF-8 *)

Infix "+:+" := String.append (at level 60, right associativity).

(** [rune] is [int32]. *)
Definition rune : Type := Z.

Definition byte_val (a : ascii) : Z := Z.of_N (N_of_ascii a).
Definition byte_of (z : Z) : ascii := ascii_of_N (Z.to_N z).

(** [utf8.RuneError] *)
Definition RuneError : rune := 65533.

Definition between (lo hi b : Z) : bool := (lo <=? b) && (b <=? hi).

(** The size of the sequence a leading byte announces, with the range its
    second byte must lie in (the tables [first] and [acceptRanges] of
    [unicode/utf8]); [None] for a byte that cannot lead a sequence. *)
Definition utf8_lead (b : Z) : option (nat * Z * Z) :=
  if between 194 223 b then Some (2%nat, 128, 191)
  else if b =? 224 then Some (3%nat, 160, 191)
  else if between 225 236 b then Some (3%nat, 128, 191)
  else if b =? 237 then Some (3%nat, 128, 159)
  else if between 238 239 b then Some (3%nat, 128, 191)
  else if b =? 240 then Some (4%nat, 144, 191)
  else if between 241 243 b then Some (4%nat, 128, 191)
  else if b =? 244 then Some (4%nat, 128, 143)
  else None.

(** [utf8.DecodeRuneInString]: the first code point of a non-empty string and
    the number of bytes it takes; an invalid or truncated sequence decodes to
    [RuneError] and takes one byte. *)
Definition DecodeRune (a0 : ascii) (rest : string) : rune * nat :=
  let s0 := byte_val a0 in
  if s0 <? 128 then (s0, 1%nat)
  else
    match utf8_lead s0 with
    | None => (RuneError, 1%nat)
    | Some (sz, lo, hi) =>
      if (String.length rest <? sz - 1)%nat then (RuneError, 1%nat)
      else
        match rest with
        | EmptyString => (RuneError, 1%nat)
        | String a1 rest1 =>
          let s1 := byte_val a1 in
          if negb (between lo hi s1) then (RuneError, 1%nat)
          else if (sz <=? 2)%nat
          then (Z.lor (Z.shiftl (Z.land s0 31) 6) (Z.land s1 63), 2%nat)
          else
            match rest1 with
            | EmptyString => (RuneError, 1%nat)
            | String a2 rest2 =>
              let s2 := byte_val a2 in
              if negb (between 128 191 s2) then (RuneError, 1%nat)
              else if (sz <=? 3)%nat
              then (Z.lor (Z.lor (Z.shiftl (Z.land s0 15) 12)
                                 (Z.shiftl (Z.land s1 63) 6))
                          (Z.land s2 63), 3%nat)
              else
                match rest2 with
                | EmptyString => (RuneError, 1%nat)
                | String a3 _ =>
                  let s3 := byte_val a3 in
                  if negb (between 128 191 s3) then (RuneError, 1%nat)
                  else (Z.lor (Z.lor (Z.lor (Z.shiftl (Z.land s0 7) 18)
                                            (Z.shiftl (Z.land s1 63) 12))
                                     (Z.shiftl (Z.land s2 63) 6))
                              (Z.land s3 63), 4%nat)
                end
            end
        end
    end.

(** The code points [for _, c := range value] yields, in order.  [skip]
    counts the continuation bytes of the code point just decoded. *)
Fixpoint runes_from (skip : nat) (s : string) : list rune :=
  match s with
  | EmptyString => []
  | String a rest =>
    match skip with
    | S k => runes_from k rest
    | O => let '(c, size) := DecodeRune a rest in
           c :: runes_from (Nat.pred size) rest
    end
  end.

Definition runes (s : string) : list rune := runes_from 0 s.

Definition string_of_bytes (l : list Z) : string :=
  string_of_list_ascii (List.map byte_of l).

(** The conversion [string(c)] of a rune: its UTF-8 encoding, and the
    encoding of [RuneError] for a value that is not a code point. *)
Definition string_of_rune (c : rune) : string :=
  if (c <? 0) || (1114111 <? c) || between 55296 57343 c
  then string_of_bytes [239; 191; 189]
  else if c <=? 127 then string_of_bytes [c]
  else if c <=? 2047
  then string_of_bytes [Z.lor 192 (Z.shiftr c 6); Z.lor 128 (Z.land c 63)]
  else if c <=? 65535
  then string_of_bytes [Z.lor 224 (Z.shiftr c 12);
                        Z.lor 128 (Z.land (Z.shiftr c 6) 63);
                        Z.lor 128 (Z.land c 63)]
  else string_of_bytes [Z.lor 240 (Z.shiftr c 18);
                        Z.lor 128 (Z.land (Z.shiftr c 12) 63);
                        Z.lor 128 (Z.land (Z.shiftr c 6) 63);
                        Z.lor 128 (Z.land c 63)].

(** Membership in the cutset [" \t\n\r"] of [text.Trim]. *)
Definition in_cutset (a : ascii) : bool :=
  let b := byte_val a in
  (b =? 32) || (b =? 9) || (b =? 10) || (b =? 13).

Fixpoint trim_left (s : string) : string :=
  match s with
  | EmptyString => EmptyString
  | String a rest => if in_cutset a then trim_left rest else s
  end.

Fixpoint trim_right (s : string) : string :=
  match s with
  | EmptyString => EmptyString
  | String a rest =>
    match trim_right rest with
    | EmptyString => if in_cutset a then EmptyString else String a EmptyString
    | t => String a t
    end
  end.

(** [text.Trim]: [strings.Trim(value, " \t\n\r")].  The cutset is ASCII, so
    the bytes of the cutset are removed from both ends. *)
Definition Trim (value : string) : string := trim_right (trim_left value).

(** A string that [Trim] has nothing to remove from: it neither starts nor
    ends with a byte of the cutset. *)
Definition starts_clean (s : string) : bool :=
  match s with
  | EmptyString => true
  | String a _ => negb (in_cutset a)
  end.

Fixpoint ends_clean (s : string) : bool :=
  match s with
  | EmptyString => true
  | String a EmptyString => negb (in_cutset a)
  | String _ rest => ends_clean rest
  end.

Definition trimmed (s : string) : bool := starts_clean s && ends_clean s.

(** Every byte of the string is in the cutset of [Trim]. *)
Fixpoint all_cutset (s : string) : bool :=
  match s with
  | EmptyString => true
  | String a rest => in_cutset a && all_cutset rest
  end.

(** The code points of a text that are (are not) the newline. *)
Definition newlines (l : list rune) : list rune := List.filter (fun c => c =? 10) l.
Definition not_newlines (l : list rune) : list rune :=
  List.filter (fun c => negb (c =? 10)) l.

(** The newline as a string: ["\n"]. *)
Definition newline : string := String (ascii_of_nat 10) EmptyString.

(** [strings.Join] *)
Fixpoint Join (elements : list string) (sep : string) : string :=
  match elements with
  | [] => ""
  | [x] => x
  | x :: rest => x +:+ sep +:+ Join rest sep
  end.

(** [text.appendLast]: the last line is extended in place. *)
Definition appendLast (lines : list string) (text : string) : list string :=
  if (length lines =? 0)%nat then [text]
  else
    let lastLine := default "" (lines !! (length lines - 1)%nat) in
    <[ (length lines - 1)%nat := lastLine +:+ text ]> lines.

(** ** The renderer *)

(** The methods of the [Renderer] interface that the three files call, on a
    renderer whose state has type [R].  A setter changes the state;
    [MeasureText] returns a box and may change the state too. *)
Class Renderer `{Imports} (R : Type) : Type := {
  SetStrokeColor : drawing_Color -> R -> R;
  SetStrokeWidth : float64 -> R -> R;
  SetStrokeDashArray : slice float64 -> R -> R;
  SetFillColor : drawing_Color -> R -> R;
  SetFont : option truetype_Font -> R -> R;
  SetFontColor : drawing_Color -> R -> R;
  SetFontSize : float64 -> R -> R;
  MeasureText : string -> R -> Box * R
}.

(** The functions of [draw.go] that [annotation_series.go] calls with the
    renderer: [Draw.MeasureAnnotation] and [Draw.Annotation]. *)
Class Drawing `{Imports} (R : Type) : Type := {
  Draw_MeasureAnnotation : Box -> Style -> Z -> Z -> string -> R -> Box * R;
  Draw_Annotation : Box -> Style -> Z -> Z -> string -> R -> R
}.

Section RendererModel.
Context `{Imports}.

(** A call made on the renderer, or made with it on [Draw]. *)
Inductive call : Type :=
| CallSetStrokeColor (c : drawing_Color)
| CallSetStrokeWidth (w : float64)
| CallSetStrokeDashArray (d : slice float64)
| CallSetFillColor (c : drawing_Color)
| CallSetFont (f : option truetype_Font)
| CallSetFontColor (c : drawing_Color)
| CallSetFontSize (z : float64)
| CallMeasureText (text : string)
| CallDrawMeasureAnnotation (canvasBox : Box) (style : Style) (lx ly : Z) (label : string)
| CallDrawAnnotation (canvasBox : Box) (style : Style) (lx ly : Z) (label : string).

Context {R : Type}.

(** The renderer as the code sees it: its state and the calls made so far,
    oldest first. *)
Record world : Type := mkWorld {
  rstate : R;
  calls : list call
}.

(** Code that drives the renderer. *)
Definition M (A : Type) : Type := world -> A * world.

Definition ret {A : Type} (a : A) : M A := fun w => (a, w).

Definition bind {A B : Type} (m : M A) (k : A -> M B) : M B :=
  fun w => let '(a, w') := m w in k a w'.

(** A call that only changes the renderer. *)
Definition command (c : call) (f : R -> R) : M unit :=
  fun w => (tt, mkWorld (f (rstate w)) (calls w ++ [c])).

(** A call that returns a result. *)
Definition query {A : Type} (c : call) (f : R -> A * R) : M A :=
  fun w => let '(a, r') := f (rstate w) in (a, mkWorld r' (calls w ++ [c])).

(** [for _, x := range l { acc = body(acc, x) }] *)
Fixpoint for_range {A S : Type} (body : S -> A -> M S) (acc : S) (l : list A) : M S :=
  match l with
  | [] => ret acc
  | x :: rest => bind (body acc x) (fun acc' => for_range body acc' rest)
  end.

End RendererModel.

Arguments world {_} R.
Arguments M {_} R A.
Arguments mkWorld {_ _} _ _.

Notation "x <- m ;; k" := (bind m (fun x => k))
  (at level 100, m at next level, right associativity).
Notation "m ;;; k" := (bind m (fun _ => k))
  (at level 100, right associativity).

(** ** Pushing a style to the renderer, and text wrapping *)

Section TextModel.
Context `{Imports} {R : Type} `{!Renderer R}.

(** [Style.WriteToRenderer] *)
Definition WriteToRenderer (s : Style) : M R unit :=
  let c1 := GetStrokeColor s [] in
  command (CallSetStrokeColor c1) (SetStrokeColor c1) ;;;
  let w := GetStrokeWidth s [] in
  command (CallSetStrokeWidth w) (SetStrokeWidth w) ;;;
  let d := GetStrokeDashArray s [] in
  command (CallSetStrokeDashArray d) (SetStrokeDashArray d) ;;;
  let c2 := GetFillColor s [] in
  command (CallSetFillColor c2) (SetFillColor c2) ;;;
  let f := GetFont s [] in
  command (CallSetFont f) (SetFont f) ;;;
  let c3 := GetFontColor s [] in
  command (CallSetFontColor c3) (SetFontColor c3) ;;;
  let z := GetFontSize s [] in
  command (CallSetFontSize z) (SetFontSize z).

(** [r.MeasureText(text)] *)
Definition measure (text : string) : M R Box :=
  query (CallMeasureText text) (MeasureText text).

(** The variables of the loop of [WrapFitWord]. *)
Record word_vars : Type := mkWordVars {
  wv_output : list string;
  wv_line : string;
  wv_word : string
}.

(** The body of the loop of [WrapFitWord], for the code point [c]. *)
Definition WrapFitWord_body (width : Z) (v : word_vars) (c : rune) : M R word_vars :=
  if c =? 10
  then ret (mkWordVars (wv_output v ++ [Trim (wv_line v +:+ wv_word v)]) "" "")
  else
    textBox <- measure (wv_line v +:+ wv_word v +:+ string_of_rune c) ;;
    if Box_Width textBox >=? width
    then ret (mkWordVars (wv_output v ++ [Trim (wv_line v)]) (wv_word v) (string_of_rune c))
    else if (c =? 32) || (c =? 9)
    then ret (mkWordVars (wv_output v) (wv_line v +:+ wv_word v +:+ string_of_rune c) "")
    else ret (mkWordVars (wv_output v) (wv_line v) (wv_word v +:+ string_of_rune c)).

(** [text.WrapFitWord] *)
Definition WrapFitWord (value : string) (width : Z) (style : Style) : M R (list string) :=
  WriteToRenderer style ;;;
  v <- for_range (WrapFitWord_body width) (mkWordVars [] "" "") (runes value) ;;
  ret (wv_output v ++ [Trim (wv_line v +:+ wv_word v)]).

(** The body of the loop of [WrapFitRune]; the variables are [output] and
    [line]. *)
Definition WrapFitRune_body (width : Z) (v : list string * string) (c : rune)
  : M R (list string * string) :=
  let '(output, line) := v in
  if c =? 10
  then ret (output ++ [line], "")
  else
    textBox <- measure (line +:+ string_of_rune c) ;;
    if Box_Width textBox >=? width
    then ret (output ++ [line], string_of_rune c)
    else ret (output, line +:+ string_of_rune c).

(** The loop of [WrapFitRune]: the lines committed and the unfinished
    line. *)
Definition WrapFitRune_scan (value : string) (width : Z) : M R (list string * string) :=
  for_range (WrapFitRune_body width) ([], "") (runes value).

(** [text.WrapFitRune] *)
Definition WrapFitRune (value : string) (width : Z) (style : Style) : M R (list string) :=
  WriteToRenderer style ;;;
  v <- WrapFitRune_scan value width ;;
  ret (appendLast (fst v) (snd v)).

(** [text.WrapFit] *)
Definition WrapFit (value : string) (width : Z) (style : Style) (wrapOption : textWrap)
  : M R (list string) :=
  valueBox <- measure value ;;
  if Box_Width valueBox >? width
  then
    if wrapOption =? TextWrapRune then WrapFitRune value width style
    else if wrapOption =? TextWrapWord then WrapFitWord value width style
    else ret [value]
  else ret [value].

(** [Style.WriteDrawingOptionsToRenderer] *)
Definition WriteDrawingOptionsToRenderer (s : Style) : M R unit :=
  let c1 := GetStrokeColor s [] in
  command (CallSetStrokeColor c1) (SetStrokeColor c1) ;;;
  let w := GetStrokeWidth s [] in
  command (CallSetStrokeWidth w) (SetStrokeWidth w) ;;;
  let d := GetStrokeDashArray s [] in
  command (CallSetStrokeDashArray d) (SetStrokeDashArray d) ;;;
  let c2 := GetFillColor s [] in
  command (CallSetFillColor c2) (SetFillColor c2).

(** [Style.WriteTextOptionsToRenderer] *)
Definition WriteTextOptionsToRenderer (s : Style) : M R unit :=
  let f := GetFont s [] in
  command (CallSetFont f) (SetFont f) ;;;
  let c3 := GetFontColor s [] in
  command (CallSetFontColor c3) (SetFontColor c3) ;;;
  let z := GetFontSize s [] in
  command (CallSetFontSize z) (SetFontSize z).

(** The calls [WriteToRenderer] makes for a style. *)
Definition style_calls (s : Style) : list call :=
  [ CallSetStrokeColor (GetStrokeColor s []);
    CallSetStrokeWidth (GetStrokeWidth s []);
    CallSetStrokeDashArray (GetStrokeDashArray s []);
    CallSetFillColor (GetFillColor s []);
    CallSetFont (GetFont s []);
    CallSetFontColor (GetFontColor s []);
    CallSetFontSize (GetFontSize s []) ].

(** [WrapFitWord] after the style is written: the loop and the last
    line. *)
Definition WrapFitWord_lines (value : string) (width : Z) : M R (list string) :=
  v <- for_range (WrapFitWord_body width) (mkWordVars [] "" "") (runes value) ;;
  ret (wv_output v ++ [Trim (wv_line v +:+ wv_word v)]).

End TextModel.

(** ** The diagnostic string of a style *)

Section StringModel.
Context `{Imports}.

(** The double quote character, and a name between double quotes. *)
Definition dquote : string := String (ascii_of_nat 34) EmptyString.
Definition quoted (name : string) : string := dquote +:+ name +:+ dquote.

(** The fields [Style.String] collects in [output] when the style is not
    zero, in the order it appends them. *)
Definition Style_String_output (s : Style) : list string :=
  let output :=
    if Show s then [quoted "show" +:+ ": true"]
    else [quoted "show" +:+ ": false"] in
  let output :=
    if negb (Box_IsZero (Padding s))
    then output ++ [quoted "padding" +:+ ": " +:+ Box_String (Padding s)]
    else output ++ [quoted "padding" +:+ ": null"] in
  let output :=
    if float_ge0 (StrokeWidth s)
    then output ++ [quoted "stroke_width" +:+ ": " +:+ Sprintf_f2 (StrokeWidth s)]
    else output ++ [quoted "stroke_width" +:+ ": null"] in
  let output :=
    if negb (Color_IsZero (StrokeColor s))
    then output ++ [quoted "stroke_color" +:+ ": " +:+ Color_String (StrokeColor s)]
    else output ++ [quoted "stroke_color" +:+ ": null"] in
  let output :=
    if (0 <? len (StrokeDashArray s))%nat
    then
      let elements := List.map Sprintf_f2 (elems (StrokeDashArray s)) in
      let dashArray := Join elements ", " in
      output ++ [quoted "stroke_dash_array" +:+ ": [" +:+ dashArray +:+ "]"]
    else output ++ [quoted "stroke_dash_array" +:+ ": null"] in
  let output :=
    if negb (Color_IsZero (FillColor s))
    then output ++ [quoted "fill_color" +:+ ": " +:+ Color_String (FillColor s)]
    else output ++ [quoted "fill_color" +:+ ": null"] in
  let output :=
    if float_ne0 (FontSize s)
    then output ++ [quoted "font_size" +:+ ": " +:+ dquote +:+ Sprintf_f2 (FontSize s)
                    +:+ "pt" +:+ dquote]
    else output ++ [quoted "font_size" +:+ ": null"] in
  let output :=
    if negb (Color_IsZero (FontColor s))
    then output ++ [quoted "font_color" +:+ ": " +:+ Color_String (FontColor s)]
    else output ++ [quoted "font_color" +:+ ": null"] in
  match Font s with
  | Some f => output ++ [quoted "font" +:+ ": " +:+ dquote +:+ Font_FamilyName f +:+ dquote]
  | None => output ++ [quoted "font_color" +:+ ": null"]
  end.

(** [Style.String] *)
Definition Style_String (s : Style) : string :=
  if Style_IsZero s then "{}"
  else "{" +:+ Join (Style_String_output s) ", " +:+ "}".

End StringModel.

(** ** Annotation series *)

Section AnnotationModel.
Context `{Imports}.

(** [Value2] is declared in [value.go]; these are the fields
    [annotation_series.go] reads ([Style] is [Value2_Style] here). *)
Record Value2 : Type := mkValue2 {
  XValue : float64;
  YValue : float64;
  Label : string;
  Value2_Style : Style
}.

(** [AnnotationSeries] ([Style] is [Series_Style] here). *)
Record AnnotationSeries : Type := mkAnnotationSeries {
  Name : string;
  Series_Style : Style;
  YAxis : YAxisType;
  Annotations : list Value2
}.

(** [AnnotationSeries.GetName], [GetStyle] and [GetYAxis] *)
Definition GetName (series : AnnotationSeries) : string := Name series.
Definition GetStyle (series : AnnotationSeries) : Style := Series_Style series.
Definition GetYAxis (series : AnnotationSeries) : YAxisType := YAxis series.

(** The box [inner] lies within the edges of [outer] (the vertical axis
    points down: [Top] is the smaller coordinate). *)
Definition Box_within (outer inner : Box) : Prop :=
  Top outer <= Top inner /\ Left outer <= Left inner /\
  Right inner <= Right outer /\ Bottom inner <= Bottom outer.

(** The smallest box that holds [box] and [ab]. *)
Definition Box_grow (box ab : Box) : Box :=
  {| Top := Z.min (Top box) (Top ab);
     Left := Z.min (Left box) (Left ab);
     Right := Z.max (Right box) (Right ab);
     Bottom := Z.max (Bottom box) (Bottom ab) |}.

(** [AnnotationSeries.annotationStyleDefaults] *)
Definition annotationStyleDefaults (defaults : Style) : Style :=
  {| Show := false;
     Padding := DefaultAnnotationPadding;
     StrokeWidth := StrokeWidth defaults;
     StrokeColor := StrokeColor defaults;
     StrokeDashArray := None;
     FillColor := DefaultAnnotationFillColor;
     FontSize := DefaultAnnotationFontSize;
     FontColor := Color_zero;
     Font := Font defaults;
     TextHorizontalAlign := TextHorizontalAlignUnset;
     TextVerticalAlign := TextVerticalAlignUnset;
     TextWrap := TextWrapUnset |}.

(** The box [Measure] starts from. *)
Definition Measure_initial_box : Box :=
  {| Top := MaxInt32; Left := MaxInt32; Right := 0; Bottom := 0 |}.

(** The test both [Measure] and [Render] make before they look at the
    annotations: [as.Style.IsZero() || as.Style.Show]. *)
Definition series_enabled (series : AnnotationSeries) : bool :=
  Style_IsZero (Series_Style series) || Show (Series_Style series).

(** The style and the position the loops of [Measure] and [Render] compute
    for the annotation [a]. *)
Definition annotation_style (seriesStyle : Style) (a : Value2) : Style :=
  InheritFrom (Value2_Style a) seriesStyle.

Definition annotation_lx (canvasBox : Box) (xrange : Range) (a : Value2) : Z :=
  int_add (Left canvasBox) (Range_Translate xrange (XValue a)).

Definition annotation_ly (canvasBox : Box) (yrange : Range) (a : Value2) : Z :=
  int_sub (Bottom canvasBox) (Range_Translate yrange (YValue a)).

(** The call [Measure] makes for the annotation [a]. *)
Definition measure_call (canvasBox : Box) (xrange yrange : Range) (seriesStyle : Style)
    (a : Value2) : call :=
  CallDrawMeasureAnnotation canvasBox (annotation_style seriesStyle a)
    (annotation_lx canvasBox xrange a) (annotation_ly canvasBox yrange a) (Label a).

(** The call [Render] makes for the annotation [a]. *)
Definition render_call (canvasBox : Box) (xrange yrange : Range) (seriesStyle : Style)
    (a : Value2) : call :=
  CallDrawAnnotation canvasBox (annotation_style seriesStyle a)
    (annotation_lx canvasBox xrange a) (annotation_ly canvasBox yrange a) (Label a).

Context {R : Type} `{!Renderer R} `{!Drawing R}.

(** The body of the loop of [Measure]. *)
Definition Measure_body (canvasBox : Box) (xrange yrange : Range) (seriesStyle : Style)
    (box : Box) (a : Value2) : M R Box :=
  let style := annotation_style seriesStyle a in
  let lx := annotation_lx canvasBox xrange a in
  let ly := annotation_ly canvasBox yrange a in
  ab <- query (CallDrawMeasureAnnotation canvasBox style lx ly (Label a))
              (Draw_MeasureAnnotation canvasBox style lx ly (Label a)) ;;
  ret {| Top := MinInt (Top box) (Top ab);
         Left := MinInt (Left box) (Left ab);
         Right := MaxInt (Right box) (Right ab);
         Bottom := MaxInt (Bottom box) (Bottom ab) |}.

(** [AnnotationSeries.Measure] *)
Definition Measure (series : AnnotationSeries) (canvasBox : Box) (xrange yrange : Range)
    (defaults : Style) : M R Box :=
  let box := Measure_initial_box in
  if series_enabled series
  then
    let seriesStyle := InheritFrom (Series_Style series) (annotationStyleDefaults defaults) in
    for_range (Measure_body canvasBox xrange yrange seriesStyle) box (Annotations series)
  else ret box.

(** The body of the loop of [Render]. *)
Definition Render_body (canvasBox : Box) (xrange yrange : Range) (seriesStyle : Style)
    (_ : unit) (a : Value2) : M R unit :=
  let style := annotation_style seriesStyle a in
  let lx := annotation_lx canvasBox xrange a in
  let ly := annotation_ly canvasBox yrange a in
  command (CallDrawAnnotation canvasBox style lx ly (Label a))
          (Draw_Annotation canvasBox style lx ly (Label a)).

(** [AnnotationSeries.Render] *)
Definition Render (series : AnnotationSeries) (canvasBox : Box) (xrange yrange : Range)
    (defaults : Style) : M R unit :=
  if series_enabled series
  then
    let seriesStyle := InheritFrom (Series_Style series) (annotationStyleDefaults defaults) in
    for_range (Render_body canvasBox xrange yrange seriesStyle) tt (Annotations series)
  else ret tt.

(** The boxes [Draw.MeasureAnnotation] returns to [Measure], in the order of
    the annotations: the same calls as [Measure], collecting the results. *)
Definition Measure_boxes_body (canvasBox : Box) (xrange yrange : Range)
    (seriesStyle : Style) (boxes : list Box) (a : Value2) : M R (list Box) :=
  let style := annotation_style seriesStyle a in
  let lx := annotation_lx canvasBox xrange a in
  let ly := annotation_ly canvasBox yrange a in
  ab <- query (CallDrawMeasureAnnotation canvasBox style lx ly (Label a))
              (Draw_MeasureAnnotation canvasBox style lx ly (Label a)) ;;
  ret (boxes ++ [ab]).

Definition Measure_boxes (series : AnnotationSeries) (canvasBox : Box)
    (xrange yrange : Range) (defaults : Style) : M R (list Box) :=
  if series_enabled series
  then
    let seriesStyle := InheritFrom (Series_Style series) (annotationStyleDefaults defaults) in
    for_range (Measure_boxes_body canvasBox xrange yrange seriesStyle) [] (Annotations series)
  else ret [].

End AnnotationModel.

(** ** A fixture

    Concrete colours, fonts, boxes, constants and a fixed-pitch renderer, to
    run the functions above on concrete inputs.  Nothing of the properties
    proved for every [Imports] and every [Renderer] depends on it. *)

(** A colour as four channels. *)
Inductive rgba : Type := RGBA (r g b a : Z).

Definition rgba_IsZero (c : rgba) : bool :=
  let '(RGBA r g b a) := c in (r =? 0) && (g =? 0) && (b =? 0) && (a =? 0).

Definition decimal (z : Z) : string := NilZero.string_of_uint (N.to_uint (Z.to_N z)).

Definition rgba_String (c : rgba) : string :=
  let '(RGBA r g b a) := c in
  "rgba(" +:+ decimal r +:+ "," +:+ decimal g +:+ "," +:+ decimal b +:+ ","
  +:+ decimal a +:+ ")".

Definition fixture_Box_IsZero (b : Box) : bool :=
  (Top b =? 0) && (Left b =? 0) && (Right b =? 0) && (Bottom b =? 0).

Definition fixture_Box_String (b : Box) : string :=
  "box(" +:+ decimal (Top b) +:+ "," +:+ decimal (Left b) +:+ ","
  +:+ decimal (Right b) +:+ "," +:+ decimal (Bottom b) +:+ ")".

Definition fixture_Box_Width (b : Box) : Z := Z.abs (Right b - Left b).

(** [m * 2^e * 100] rounded to the nearest integer, ties to even. *)
Definition hundredths (m : positive) (e : Z) : Z :=
  if 0 <=? e then Z.pos m * 2 ^ e * 100
  else
    let den := 2 ^ (- e) in
    let num := Z.pos m * 100 in
    let q := num / den in
    let r := num mod den in
    if 2 * r <? den then q
    else if den <? 2 * r then q + 1
    else if Z.even q then q else q + 1.

Definition two_digits (z : Z) : string :=
  if z <? 10 then "0" +:+ decimal z else decimal z.

(** Two decimals, as [%.2f] prints them. *)
Definition fixture_Sprintf_f2 (x : float64) : string :=
  match x with
  | S754_nan => "NaN"
  | S754_infinity s => if s then "-Inf" else "+Inf"
  | S754_zero s => (if s then "-" else "") +:+ "0.00"
  | S754_finite s m e =>
    let n := hundredths m e in
    (if s then "-" else "") +:+ decimal (n / 100) +:+ "." +:+ two_digits (n mod 100)
  end.

(** The binary64 values 1, 5 and 10. *)
Definition float_one : float64 := S754_finite false 4503599627370496 (-52).
Definition float_five : float64 := S754_finite false 5629499534213120 (-50).
Definition float_ten : float64 := S754_finite false 5629499534213120 (-49).

Definition fixture_imports : Imports :=
  {| drawing_Color := rgba;
     Color_zero := RGBA 0 0 0 0;
     Color_IsZero := rgba_IsZero;
     Color_String := rgba_String;
     ColorTransparent := RGBA 1 1 1 0;
     truetype_Font := string;
     Font_FamilyName := fun f => f;
     Box_IsZero := fixture_Box_IsZero;
     Box_String := fixture_Box_String;
     Box_Width := fixture_Box_Width;
     DefaultStrokeWidth := float_one;
     DefaultFontSize := float_ten;
     DefaultAnnotationFillColor := RGBA 255 255 255 255;
     DefaultAnnotationFontSize := float_ten;
     DefaultAnnotationPadding := mkBox 5 5 5 5;
     Sprintf_f2 := fixture_Sprintf_f2;
     Range := Z;
     Range_Translate := fun offset _ => offset;
     YAxisType := Z;
     MinInt := Z.min;
     MaxInt := Z.max |}.

(** The advance of one code point at a font size: a tenth of the size. *)
Definition pitch (size : float64) : Z :=
  match size with
  | S754_finite false m e => Z.shiftl (Z.pos m) e / 10
  | _ => 0
  end.

(** A fixed-pitch renderer.  Its state is the font size set last; a text
    measures as many advances as it has code points. *)
Definition fixed_pitch_renderer : @Renderer fixture_imports float64 :=
  {| SetStrokeColor := fun _ r => r;
     SetStrokeWidth := fun _ r => r;
     SetStrokeDashArray := fun _ r => r;
     SetFillColor := fun _ r => r;
     SetFont := fun _ r => r;
     SetFontColor := fun _ r => r;
     SetFontSize := fun size _ => size;
     MeasureText := fun text r =>
       (mkBox 0 0 (pitch r * Z.of_nat (length (runes text))) 0, r) |}.

(** Drawing on the fixed-pitch renderer: an annotation takes the box of its
    label, one unit high, at its position. *)
Definition fixed_pitch_drawing : @Drawing fixture_imports float64 :=
  {| Draw_MeasureAnnotation := fun _ _ lx ly label r =>
       (mkBox ly lx (lx + pitch r * Z.of_nat (length (runes label))) (ly + 1), r);
     Draw_Annotation := fun _ _ _ _ _ r => r |}.

(** Inputs on the fixture. *)

Section FixtureInputs.
#[local] Existing Instance fixture_imports.
#[local] Existing Instance fixed_pitch_renderer.

(** A style that sets the font size only: [Style{FontSize: 10}]. *)
Definition style_font_size_10 : Style :=
  {| Show := false;
     Padding := Box_zero;
     StrokeWidth := float_zero;
     StrokeColor := Color_zero;
     StrokeDashArray := None;
     FillColor := Color_zero;
     FontSize := float_ten;
     FontColor := Color_zero;
     Font := None;
     TextHorizontalAlign := TextHorizontalAlignUnset;
     TextVerticalAlign := TextVerticalAlignUnset;
     TextWrap := TextWrapUnset |}.

(** A style that sets everything but the font and has [Show] set. *)
Definition style_shown : Style :=
  {| Show := true;
     Padding := mkBox 1 2 3 4;
     StrokeWidth := float_five;
     StrokeColor := RGBA 255 0 0 255;
     StrokeDashArray := Some [float_one; float_five];
     FillColor := RGBA 0 255 0 255;
     FontSize := float_five;
     FontColor := RGBA 0 0 255 255;
     Font := None;
     TextHorizontalAlign := TextHorizontalAlignCenter;
     TextVerticalAlign := TextVerticalAlignTop;
     TextWrap := TextWrapRune |}.

(** A renderer whose font size is 10: one unit per code point. *)
Definition world_size_10 : world float64 := mkWorld float_ten [].

(** A renderer whose font size is 20: two units per code point. *)
Definition world_size_20 : world float64 :=
  mkWorld (S754_finite false 5629499534213120 (-48)) [].

(** A series whose style is not zero and has [Show] unset, with one
    annotation. *)
Definition hidden_series : AnnotationSeries :=
  {| Name := "notes";
     Series_Style := style_font_size_10;
     YAxis := 0;
     Annotations := [ {| XValue := float_one; YValue := float_five;
                         Label := "peak"; Value2_Style := Style_zero |} ] |}.

(** A renderer without state, where a text measures as many units as it has
    bytes. *)
Definition byte_renderer : @Renderer fixture_imports unit :=
  {| SetStrokeColor := fun _ r => r;
     SetStrokeWidth := fun _ r => r;
     SetStrokeDashArray := fun _ r => r;
     SetFillColor := fun _ r => r;
     SetFont := fun _ r => r;
     SetFontColor := fun _ r => r;
     SetFontSize := fun _ r => r;
     MeasureText := fun text r => (mkBox 0 0 (Z.of_nat (String.length text)) 0, r) |}.

(** A style that sets every attribute. *)
Definition style_full : Style :=
  {| Show := true;
     Padding := mkBox 1 2 3 4;
     StrokeWidth := float_five;
     StrokeColor := RGBA 255 0 0 255;
     StrokeDashArray := Some [float_one; float_five];
     FillColor := RGBA 0 255 0 255;
     FontSize := float_five;
     FontColor := RGBA 0 0 255 255;
     Font := Some "Roboto";
     TextHorizontalAlign := TextHorizontalAlignCenter;
     TextVerticalAlign := TextVerticalAlignTop;
     TextWrap := TextWrapRune |}.

(** A series with the zero style and two annotations. *)
Definition plain_series : AnnotationSeries :=
  {| Name := "marks";
     Series_Style := Style_zero;
     YAxis := 0;
     Annotations := [ {| XValue := float_one; YValue := float_five;
                         Label := "peak"; Value2_Style := Style_zero |};
                      {| XValue := float_five; YValue := float_one;
                         Label := "low"; Value2_Style := style_font_size_10 |} ] |}.

End FixtureInputs.

(** * Properties *)

(** ** The style cascade *)

Section StyleFacts.
Context `{Imports}.

Lemma coalesce_idempotent {A : Type} (unset : A -> bool) (own default : A) :
  coalesce unset (coalesce unset own default) default = coalesce unset own default.
Proof.
  unfold coalesce.
  destruct (unset own) eqn:Eown.
  - destruct (unset default); reflexivity.
  - rewrite Eown. reflexivity.
Qed.

Lemma coalesce_unset {A : Type} (unset : A -> bool) (own default : A) :
  unset own = true -> coalesce unset own default = default.
Proof. unfold coalesce. intros ->. reflexivity. Qed.

(** [InheritFrom], field by field, in terms of [coalesce]. *)
Lemma InheritFrom_coalesce (s d : Style) :
  InheritFrom s d =
  {| Show := false;
     Padding := coalesce Box_IsZero (Padding s) (Padding d);
     StrokeWidth := coalesce float_eq0 (StrokeWidth s) (StrokeWidth d);
     StrokeColor := coalesce Color_IsZero (StrokeColor s) (StrokeColor d);
     StrokeDashArray :=
       coalesce (fun a => (len a =? 0)%nat) (StrokeDashArray s) (StrokeDashArray d);
     FillColor := coalesce Color_IsZero (FillColor s) (FillColor d);
     FontSize := coalesce float_eq0 (FontSize s) (FontSize d);
     FontColor := coalesce Color_IsZero (FontColor s) (FontColor d);
     Font := coalesce Font_is_nil (Font s) (Font d);
     TextHorizontalAlign :=
       coalesce (fun a => a =? TextHorizontalAlignUnset)
                (TextHorizontalAlign s) (TextHorizontalAlign d);
     TextVerticalAlign :=
       coalesce (fun a => a =? TextVerticalAlignUnset)
                (TextVerticalAlign s) (TextVerticalAlign d);
     TextWrap := coalesce (fun a => a =? TextWrapUnset) (TextWrap s) (TextWrap d) |}.
Proof. reflexivity. Qed.

(** C1. Cascading twice with the same defaults is cascading once: for every
    style [s] and every defaults style [d],
    [s.InheritFrom(d).InheritFrom(d) = s.InheritFrom(d)]. *)
Theorem InheritFrom_idempotent (s d : Style) :
  InheritFrom (InheritFrom s d) d = InheritFrom s d.
Proof.
  rewrite (InheritFrom_coalesce (InheritFrom s d) d).
  rewrite (InheritFrom_coalesce s d).
  cbn [Show Padding StrokeWidth StrokeColor StrokeDashArray FillColor FontSize
       FontColor Font TextHorizontalAlign TextVerticalAlign TextWrap].
  rewrite !coalesce_idempotent.
  reflexivity.
Qed.

(** C8. The style [s.InheritFrom(d)] never has [Show] set, whatever [s] and
    [d] are; so a style with [Show] set is never its own cascade. *)
Theorem InheritFrom_drops_Show (s d : Style) :
  Show (InheritFrom s d) = false /\
  (Show s = true -> InheritFrom s d <> s).
Proof.
  split.
  - reflexivity.
  - intros Hshow Heq.
    apply (f_equal Show) in Heq.
    cbn [InheritFrom Show] in Heq.
    congruence.
Qed.

(** C4, amended. If every attribute of [s] is unset then [s.InheritFrom(d)]
    is [d] with [Show] cleared: each attribute of [d] is copied as it is, and
    an attribute [d] leaves unset stays unset in the result (no built-in
    default is applied to it). *)
Theorem InheritFrom_all_unset (s d : Style) :
  all_unset s = true -> InheritFrom s d = without_Show d.
Proof.
  unfold all_unset, Style_IsZero.
  intros Hs.
  repeat (apply andb_prop in Hs; destruct Hs as [Hs ?]).
  rewrite InheritFrom_coalesce.
  unfold without_Show.
  rewrite !coalesce_unset by assumption.
  reflexivity.
Qed.

(** C5. [s.IsZero()] is true exactly when the stroke, fill and font colours
    are zero, the stroke width and the font size are [0] (of either sign) and
    there is no font; and it does not depend on the [Show], padding, dash
    array, alignment and wrap fields. *)
Theorem Style_IsZero_iff (s : Style) :
  (Style_IsZero s = true <->
   Color_IsZero (StrokeColor s) = true /\
   Color_IsZero (FillColor s) = true /\
   Color_IsZero (FontColor s) = true /\
   (exists sign, StrokeWidth s = S754_zero sign) /\
   (exists sign, FontSize s = S754_zero sign) /\
   Font s = None) /\
  (forall show padding dash halign valign wrap,
     Style_IsZero
       {| Show := show;
          Padding := padding;
          StrokeWidth := StrokeWidth s;
          StrokeColor := StrokeColor s;
          StrokeDashArray := dash;
          FillColor := FillColor s;
          FontSize := FontSize s;
          FontColor := FontColor s;
          Font := Font s;
          TextHorizontalAlign := halign;
          TextVerticalAlign := valign;
          TextWrap := wrap |} = Style_IsZero s).
Proof.
  assert (Hzero : forall x, float_eq0 x = true <-> exists sign, x = S754_zero sign).
  { intros x. split.
    - destruct x as [sign | sign | | sign m e]; cbn; try discriminate.
      + intros _. exists sign. reflexivity.
      + destruct sign; discriminate.
      + destruct sign; discriminate.
    - intros [sign ->]. reflexivity. }
  assert (Hnil : forall f, Font_is_nil f = true <-> f = None).
  { intros [f |]; cbn; split; congruence. }
  split.
  - unfold Style_IsZero.
    rewrite !andb_true_iff, !Hzero, Hnil.
    tauto.
  - intros. reflexivity.
Qed.

End StyleFacts.

(** ** Code that drives the renderer *)

Section MonadFacts.
Context `{Imports} {R : Type}.

Lemma bind_run {A B : Type} (m : M R A) (k : A -> M R B) (w : world R) :
  bind m k w = k (fst (m w)) (snd (m w)).
Proof. unfold bind. destruct (m w). reflexivity. Qed.

Lemma command_run (c : call) (f : R -> R) (w : world R) :
  command c f w = (tt, mkWorld (f (rstate w)) (calls w ++ [c])).
Proof. reflexivity. Qed.

Lemma query_run {A : Type} (c : call) (f : R -> A * R) (w : world R) :
  query c f w =
  (fst (f (rstate w)), mkWorld (snd (f (rstate w))) (calls w ++ [c])).
Proof. unfold query. destruct (f (rstate w)). reflexivity. Qed.

(** A loop whose body makes exactly one call per element makes the calls of
    its elements, in order. *)
Lemma for_range_calls {A S : Type} (body : S -> A -> M R S) (ev : A -> call) :
  (forall acc a w, calls (snd (body acc a w)) = calls w ++ [ev a]) ->
  forall l acc w,
    calls (snd (for_range body acc l w)) = calls w ++ List.map ev l.
Proof.
  intros Hbody l.
  induction l as [| a l IH]; intros acc w; cbn [for_range List.map].
  - unfold ret. cbn. rewrite app_nil_r. reflexivity.
  - rewrite bind_run, IH, Hbody, <- app_assoc. reflexivity.
Qed.

(** A loop whose body computes its variables without regard to the renderer
    is a fold. *)
Lemma for_range_fold {A S : Type} (body : S -> A -> M R S) (g : S -> A -> S) :
  (forall acc a w, fst (body acc a w) = g acc a) ->
  forall l acc w, fst (for_range body acc l w) = fold_left g l acc.
Proof.
  intros Hbody l.
  induction l as [| a l IH]; intros acc w; cbn [for_range fold_left].
  - reflexivity.
  - rewrite bind_run, IH, Hbody. reflexivity.
Qed.

(** What holds of every value the variables of a loop take holds of the
    values it ends with. *)
Lemma for_range_invariant {A S : Type} (body : S -> A -> M R S) (P : S -> Prop) :
  (forall acc a w, P acc -> P (fst (body acc a w))) ->
  forall l acc w, P acc -> P (fst (for_range body acc l w)).
Proof.
  intros Hbody l.
  induction l as [| a l IH]; intros acc w Hacc; cbn [for_range].
  - exact Hacc.
  - rewrite bind_run. apply IH, Hbody, Hacc.
Qed.

End MonadFacts.

(** ** Text wrapping *)

Section TextFacts.
Context `{Imports} {R : Type} `{!Renderer R}.

Lemma trim_left_starts_clean (s : string) : starts_clean (trim_left s) = true.
Proof.
  induction s as [| a rest IH]; cbn [trim_left]; [reflexivity |].
  destruct (in_cutset a) eqn:Ha; [exact IH |].
  cbn [starts_clean]. rewrite Ha. reflexivity.
Qed.

Lemma trim_right_starts_clean (s : string) :
  starts_clean s = true -> starts_clean (trim_right s) = true.
Proof.
  destruct s as [| a rest]; [reflexivity |].
  cbn [starts_clean trim_right]. intros Ha.
  destruct (trim_right rest); [| exact Ha].
  destruct (in_cutset a) eqn:Hcut; [reflexivity |].
  cbn [starts_clean]. rewrite Hcut. reflexivity.
Qed.

Lemma trim_right_ends_clean (s : string) : ends_clean (trim_right s) = true.
Proof.
  induction s as [| a rest IH]; [reflexivity |].
  cbn [trim_right].
  destruct (trim_right rest) as [| b t].
  - destruct (in_cutset a) eqn:Ha; [reflexivity |].
    cbn [ends_clean]. rewrite Ha. reflexivity.
  - exact IH.
Qed.

(** [Trim] leaves no byte of its cutset at either end. *)
Lemma Trim_trimmed (value : string) : trimmed (Trim value) = true.
Proof.
  unfold trimmed, Trim.
  rewrite trim_right_starts_clean by apply trim_left_starts_clean.
  rewrite trim_right_ends_clean.
  reflexivity.
Qed.

(** Every line [WrapFitWord] returns is trimmed. *)
Lemma WrapFitWord_lines_trimmed (value : string) (width : Z) (style : Style)
    (w : world R) :
  List.Forall (fun line => trimmed line = true)
              (fst (WrapFitWord value width style w)).
Proof.
  unfold WrapFitWord. rewrite !bind_run. cbn [ret fst].
  apply Forall_app. split; [| repeat constructor; apply Trim_trimmed].
  apply (for_range_invariant (WrapFitWord_body width)
           (fun v => List.Forall (fun line => trimmed line = true) (wv_output v))).
  - intros v c w' Hv. unfold WrapFitWord_body.
    destruct (c =? 10).
    + cbn. apply Forall_app. split; [exact Hv |].
      repeat constructor. apply Trim_trimmed.
    + unfold measure. rewrite bind_run, query_run. cbn [fst snd].
      destruct (Box_Width _ >=? width); [| destruct ((c =? 32) || (c =? 9))].
      * cbn. apply Forall_app. split; [exact Hv |].
        repeat constructor. apply Trim_trimmed.
      * exact Hv.
      * exact Hv.
  - constructor.
Qed.

(** [appendLast] without indices: the text extends the last line, and is
    the only line when there is none. *)
Lemma appendLast_last (lines : list string) (text : string) :
  appendLast lines text =
  match lines with
  | [] => [text]
  | _ :: _ => List.removelast lines ++ [List.last lines "" +:+ text]
  end.
Proof.
  destruct lines as [| x l _] using rev_ind; [reflexivity |].
  unfold appendLast.
  rewrite length_app. cbn [length].
  replace (length l + 1 - 1)%nat with (length l) by lia.
  replace (length l + 1 =? 0)%nat with false by (symmetry; apply Nat.eqb_neq; lia).
  rewrite list_lookup_middle by reflexivity.
  rewrite insert_app_r_alt by lia.
  rewrite Nat.sub_diag. cbn [default].
  rewrite removelast_last, last_last.
  destruct l; reflexivity.
Qed.

(** C3. [WrapFitRune] appends the unfinished line its loop ends with to the
    last line the loop committed, and returns it as the only line when the
    loop committed none; and on a renderer where a text measures under
    [width] exactly when it has at most 3 characters, ["abcdefg"] wraps to
    ["abc"; "defg"]. *)
Theorem WrapFitRune_appends_remainder :
  (forall (value : string) (width : Z) (style : Style) (w : world R),
     let scanned :=
       fst (WrapFitRune_scan value width (snd (WriteToRenderer style w))) in
     fst (WrapFitRune value width style w) =
     match fst scanned with
     | [] => [snd scanned]
     | _ :: _ => List.removelast (fst scanned) ++ [List.last (fst scanned) "" +:+ snd scanned]
     end) /\
  (forall (width : Z) (style : Style) (w : world R),
     (forall text r,
        (Box_Width (fst (MeasureText text r)) >=? width) = (3 <? String.length text)%nat) ->
     fst (WrapFitRune "abcdefg" width style w) = ["abc"; "defg"]).
Proof.
  assert (Hrun : forall value width style w,
    fst (WrapFitRune value width style w) =
    appendLast
      (fst (fst (WrapFitRune_scan value width (snd (WriteToRenderer style w)))))
      (snd (fst (WrapFitRune_scan value width (snd (WriteToRenderer style w)))))).
  { intros. unfold WrapFitRune. rewrite !bind_run. reflexivity. }
  split.
  - intros value width style w scanned.
    rewrite Hrun. apply appendLast_last.
  - intros width style w Hfit.
    rewrite Hrun. unfold WrapFitRune_scan.
    rewrite (for_range_fold _
      (fun (v : list string * string) (c : rune) =>
         if c =? 10 then (fst v ++ [snd v], "")
         else if (3 <? String.length (snd v +:+ string_of_rune c))%nat
              then (fst v ++ [snd v], string_of_rune c)
              else (fst v, snd v +:+ string_of_rune c))).
    + reflexivity.
    + intros [output line] c w'. unfold WrapFitRune_body.
      destruct (c =? 10); [reflexivity |].
      unfold measure. rewrite bind_run, query_run. cbn [fst snd].
      rewrite Hfit.
      destruct (3 <? String.length (line +:+ string_of_rune c))%nat; reflexivity.
Qed.

(** C6. When the text measures no wider than [width], or when the wrap
    option is neither the word nor the rune option, [WrapFit] returns the
    text alone and unchanged. *)
Theorem WrapFit_unwrapped (value : string) (width : Z) (style : Style)
    (wrapOption : textWrap) (w : world R) :
  Box_Width (fst (MeasureText value (rstate w))) <= width \/
  (wrapOption <> TextWrapWord /\ wrapOption <> TextWrapRune) ->
  fst (WrapFit value width style wrapOption w) = [value].
Proof.
  intros Hcase.
  unfold WrapFit, measure.
  rewrite bind_run, query_run. cbn [fst snd].
  destruct (Box_Width (fst (MeasureText value (rstate w))) >? width) eqn:Hwide;
    [| reflexivity].
  destruct Hcase as [Hfits | [Hword Hrune]].
  - apply Z.gtb_lt in Hwide. lia.
  - apply Z.eqb_neq in Hword, Hrune. rewrite Hword, Hrune. reflexivity.
Qed.

(** C9. When the text measures no wider than [width], or when the wrap
    option is neither the word nor the rune option, [WrapFit] makes one call
    on the renderer, the [MeasureText] of the text, and no setter call: the
    measurement is made in the state the renderer was handed over in, and the
    style is not written to it. *)
Theorem WrapFit_unwrapped_calls (value : string) (width : Z) (style : Style)
    (wrapOption : textWrap) (w : world R) :
  Box_Width (fst (MeasureText value (rstate w))) <= width \/
  (wrapOption <> TextWrapWord /\ wrapOption <> TextWrapRune) ->
  snd (WrapFit value width style wrapOption w) =
  mkWorld (snd (MeasureText value (rstate w))) (calls w ++ [CallMeasureText value]).
Proof.
  intros Hcase.
  unfold WrapFit, measure.
  rewrite bind_run, query_run. cbn [fst snd].
  destruct (Box_Width (fst (MeasureText value (rstate w))) >? width) eqn:Hwide;
    [| reflexivity].
  destruct Hcase as [Hfits | [Hword Hrune]].
  - apply Z.gtb_lt in Hwide. lia.
  - apply Z.eqb_neq in Hword, Hrune. rewrite Hword, Hrune. reflexivity.
Qed.

End TextFacts.

(** ** The diagnostic string *)

Section StringFacts.
Context `{Imports}.

(** The nine fields of [Style.String], one by one. *)
Lemma Style_String_output_fields (s : Style) :
  Style_String_output s =
  [ (if Show s then quoted "show" +:+ ": true" else quoted "show" +:+ ": false");
    (if negb (Box_IsZero (Padding s))
     then quoted "padding" +:+ ": " +:+ Box_String (Padding s)
     else quoted "padding" +:+ ": null");
    (if float_ge0 (StrokeWidth s)
     then quoted "stroke_width" +:+ ": " +:+ Sprintf_f2 (StrokeWidth s)
     else quoted "stroke_width" +:+ ": null");
    (if negb (Color_IsZero (StrokeColor s))
     then quoted "stroke_color" +:+ ": " +:+ Color_String (StrokeColor s)
     else quoted "stroke_color" +:+ ": null");
    (if (0 <? len (StrokeDashArray s))%nat
     then quoted "stroke_dash_array" +:+ ": ["
          +:+ Join (List.map Sprintf_f2 (elems (StrokeDashArray s))) ", " +:+ "]"
     else quoted "stroke_dash_array" +:+ ": null");
    (if negb (Color_IsZero (FillColor s))
     then quoted "fill_color" +:+ ": " +:+ Color_String (FillColor s)
     else quoted "fill_color" +:+ ": null");
    (if float_ne0 (FontSize s)
     then quoted "font_size" +:+ ": " +:+ dquote +:+ Sprintf_f2 (FontSize s)
          +:+ "pt" +:+ dquote
     else quoted "font_size" +:+ ": null");
    (if negb (Color_IsZero (FontColor s))
     then quoted "font_color" +:+ ": " +:+ Color_String (FontColor s)
     else quoted "font_color" +:+ ": null");
    (match Font s with
     | Some f => quoted "font" +:+ ": " +:+ dquote +:+ Font_FamilyName f +:+ dquote
     | None => quoted "font_color" +:+ ": null"
     end) ].
Proof.
  unfold Style_String_output.
  destruct (Show s), (negb (Box_IsZero (Padding s))), (float_ge0 (StrokeWidth s)),
    (negb (Color_IsZero (StrokeColor s))), (0 <? len (StrokeDashArray s))%nat,
    (negb (Color_IsZero (FillColor s))), (float_ne0 (FontSize s)),
    (negb (Color_IsZero (FontColor s))), (Font s); reflexivity.
Qed.

Lemma float_eq0_ge0 (x : float64) : float_eq0 x = true -> float_ge0 x = true.
Proof.
  destruct x as [sign | sign | | sign m e]; cbn; try discriminate.
  - reflexivity.
  - destruct sign; discriminate.
  - destruct sign; discriminate.
Qed.

(** C7, as the code has it. For a style that is not zero and whose stroke
    width is [0], [Style.String] prints the third field as
    ["stroke_width": ] followed by the formatted number, not as
    ["stroke_width": null]; and when the style has no font the ninth field
    is labelled [font_color], not [font]. *)
Theorem Style_String_zero_stroke_width (s : Style) :
  Style_IsZero s = false ->
  float_eq0 (StrokeWidth s) = true ->
  Style_String s = "{" +:+ Join (Style_String_output s) ", " +:+ "}" /\
  nth_error (Style_String_output s) 2 =
    Some (quoted "stroke_width" +:+ ": " +:+ Sprintf_f2 (StrokeWidth s)) /\
  (Font s = None ->
   nth_error (Style_String_output s) 8 = Some (quoted "font_color" +:+ ": null")).
Proof.
  intros Hnonzero Hwidth.
  split; [| split].
  - unfold Style_String. rewrite Hnonzero. reflexivity.
  - rewrite Style_String_output_fields. cbn [nth_error].
    rewrite (float_eq0_ge0 _ Hwidth). reflexivity.
  - intros Hfont. rewrite Style_String_output_fields. cbn [nth_error].
    rewrite Hfont. reflexivity.
Qed.

End StringFacts.

(** ** Annotation series *)

Section AnnotationFacts.
Context `{Imports} {R : Type} `{!Renderer R} `{!Drawing R}.

(** C10. [Measure] and [Render] go through the annotations of a series, one
    call of [Draw.MeasureAnnotation] (of [Draw.Annotation]) per annotation, in
    order, when the style of the series is zero or has [Show] set; otherwise
    they make no call at all, leave the renderer as it is, and [Measure]
    returns the box it starts from. *)
Theorem annotations_processed_iff_enabled (series : AnnotationSeries)
    (canvasBox : Box) (xrange yrange : Range) (defaults : Style) (w : world R) :
  let enabled := Style_IsZero (Series_Style series) || Show (Series_Style series) in
  let seriesStyle :=
    InheritFrom (Series_Style series) (annotationStyleDefaults defaults) in
  calls (snd (Measure series canvasBox xrange yrange defaults w)) =
    calls w ++
    (if enabled
     then List.map (measure_call canvasBox xrange yrange seriesStyle) (Annotations series)
     else []) /\
  calls (snd (Render series canvasBox xrange yrange defaults w)) =
    calls w ++
    (if enabled
     then List.map (render_call canvasBox xrange yrange seriesStyle) (Annotations series)
     else []) /\
  (enabled = false ->
   Measure series canvasBox xrange yrange defaults w = (Measure_initial_box, w) /\
   Render series canvasBox xrange yrange defaults w = (tt, w)).
Proof.
  intros enabled seriesStyle.
  unfold Measure, Render, series_enabled.
  fold enabled. fold seriesStyle.
  destruct enabled.
  - split; [| split]; [| | discriminate].
    + apply for_range_calls.
      intros box a w'. unfold Measure_body.
      rewrite bind_run, query_run. reflexivity.
    + apply for_range_calls.
      intros [] a w'. reflexivity.
  - unfold ret. cbn [fst snd]. rewrite app_nil_r.
    repeat split; reflexivity.
Qed.

End AnnotationFacts.

(** ** The properties on the fixture *)

Section FixtureFacts.
#[local] Existing Instance fixture_imports.

(** C8, on [style_shown]. *)
Lemma InheritFrom_drops_Show_witness :
  Show style_shown = true /\ InheritFrom style_shown Style_zero <> style_shown.
Proof.
  split.
  - reflexivity.
  - apply (InheritFrom_drops_Show style_shown Style_zero). reflexivity.
Defined.

(** C4 as stated fails: the cascade of the zero style over the zero style
    leaves the wrap mode unset, where the accessor of the defaults alone
    gives the built-in word mode (and so for the stroke width and the other
    attributes). *)
Lemma InheritFrom_zero_not_resolved :
  ~ (forall s d : Style,
       all_unset s = true -> InheritFrom s d = resolved_by_builtins d).
Proof.
  intros Hclaim.
  specialize (Hclaim Style_zero Style_zero eq_refl).
  apply (f_equal TextWrap) in Hclaim.
  vm_compute in Hclaim.
  discriminate Hclaim.
Qed.

(** C4 amended, on the zero style and [style_shown]. *)
Lemma InheritFrom_all_unset_witness :
  all_unset Style_zero = true /\
  InheritFrom Style_zero style_shown = without_Show style_shown.
Proof.
  split.
  - reflexivity.
  - apply (InheritFrom_all_unset Style_zero style_shown). reflexivity.
Defined.

(** C7 on [Style{FontSize: 10}], whose stroke width is [0]: the string has
    ["stroke_width": 0.00] and twice the label [font_color]. *)
Lemma Style_String_zero_stroke_width_witness :
  Style_IsZero style_font_size_10 = false /\
  float_eq0 (StrokeWidth style_font_size_10) = true /\
  Style_String style_font_size_10 =
    "{" +:+ Join [ quoted "show" +:+ ": false";
                   quoted "padding" +:+ ": null";
                   quoted "stroke_width" +:+ ": 0.00";
                   quoted "stroke_color" +:+ ": null";
                   quoted "stroke_dash_array" +:+ ": null";
                   quoted "fill_color" +:+ ": null";
                   quoted "font_size" +:+ ": " +:+ quoted "10.00pt";
                   quoted "font_color" +:+ ": null";
                   quoted "font_color" +:+ ": null" ] ", " +:+ "}".
Proof.
  split; [reflexivity | split; [reflexivity |]].
  destruct (Style_String_zero_stroke_width style_font_size_10 eq_refl eq_refl)
    as [Hstring _].
  rewrite Hstring. reflexivity.
Defined.

#[local] Existing Instance fixed_pitch_renderer.
#[local] Existing Instance fixed_pitch_drawing.

(** [range] over a string: ASCII bytes are their own code points, a
    multi-byte sequence is one code point, and a byte that is not UTF-8 reads
    as [RuneError] and is written back as three bytes. *)
Example runes_of_text :
  runes "fox" = [102; 111; 120] /\
  runes (string_of_bytes [226; 130; 172; 33]) = [8364; 33] /\
  string_of_rune 8364 = string_of_bytes [226; 130; 172] /\
  runes (string_of_bytes [255; 65]) = [RuneError; 65] /\
  string_of_rune RuneError = string_of_bytes [239; 191; 189].
Proof. repeat split; reflexivity. Qed.

(** The calls of [WriteToRenderer], in order, for the zero style. *)
Example WriteToRenderer_calls :
  calls (snd (WriteToRenderer Style_zero world_size_20)) =
  [ CallSetStrokeColor ColorTransparent;
    CallSetStrokeWidth DefaultStrokeWidth;
    CallSetStrokeDashArray None;
    CallSetFillColor ColorTransparent;
    CallSetFont None;
    CallSetFontColor ColorTransparent;
    CallSetFontSize DefaultFontSize ].
Proof. reflexivity. Qed.

(** Two words fit on a line: no word is split. *)
Example WrapFitWord_two_words_a_line :
  fst (WrapFitWord "the quick brown fox" 11 Style_zero world_size_10) =
  ["the quick"; "brown fox"].
Proof. vm_compute. reflexivity. Qed.

(** C2 on the code. With one unit per code point and [width = 5] every word
    of ["abcd efgh ij"] measures under the width, and [WrapFitWord] returns
    the word [efgh] in two pieces, on two lines, with two empty lines; with
    [width = 3] the single word ["abcdef"] comes back in four pieces. *)
Theorem WrapFitWord_splits_words :
  fixture_Box_Width (fst (MeasureText "abcd" float_ten)) = 4 /\
  fixture_Box_Width (fst (MeasureText "efgh" float_ten)) = 4 /\
  fixture_Box_Width (fst (MeasureText "ij" float_ten)) = 2 /\
  fst (WrapFitWord "abcd efgh ij" 5 Style_zero world_size_10) =
    [""; "abcd"; ""; "efg"; "h ij"] /\
  fst (WrapFitWord "abcdef" 3 Style_zero world_size_10) =
    [""; "ab"; "c"; "d"; "ef"].
Proof. vm_compute. repeat split; reflexivity. Qed.

(** C6, on a renderer left at font size 20: ["abc"] measures 6. *)
Lemma WrapFit_unwrapped_witness :
  (Box_Width (fst (MeasureText "abc" (rstate world_size_20))) <= 6 \/
   (TextWrapWord <> TextWrapWord /\ TextWrapWord <> TextWrapRune)) /\
  fst (WrapFit "abc" 6 Style_zero TextWrapWord world_size_20) = ["abc"].
Proof.
  assert (Hfits : Box_Width (fst (MeasureText "abc" (rstate world_size_20))) <= 6).
  { vm_compute. discriminate. }
  split.
  - left. exact Hfits.
  - apply (WrapFit_unwrapped "abc" 6 Style_zero TextWrapWord world_size_20).
    left. exact Hfits.
Defined.

(** C9, with an option that does not wrap and a text wider than [width]:
    the measurement is the only call, made at the font size 20 the renderer
    was left at, though the style asks for size 10. *)
Lemma WrapFit_unwrapped_calls_witness :
  (Box_Width (fst (MeasureText "abcdefg" (rstate world_size_20))) <= 4 \/
   (TextWrapNone <> TextWrapWord /\ TextWrapNone <> TextWrapRune)) /\
  snd (WrapFit "abcdefg" 4 style_font_size_10 TextWrapNone world_size_20) =
  mkWorld (rstate world_size_20) [CallMeasureText "abcdefg"].
Proof.
  assert (Hmode : TextWrapNone <> TextWrapWord /\ TextWrapNone <> TextWrapRune).
  { split; discriminate. }
  split.
  - right. exact Hmode.
  - exact (WrapFit_unwrapped_calls "abcdefg" 4 style_font_size_10 TextWrapNone
             world_size_20 (or_intror Hmode)).
Defined.

(** C10, on [hidden_series]: nothing is measured or drawn. *)
Lemma annotations_processed_iff_enabled_witness :
  Style_IsZero (Series_Style hidden_series) || Show (Series_Style hidden_series) = false /\
  Measure hidden_series (mkBox 0 0 100 100) 10 20 Style_zero world_size_10 =
    (Measure_initial_box, world_size_10) /\
  Render hidden_series (mkBox 0 0 100 100) 10 20 Style_zero world_size_10 =
    (tt, world_size_10).
Proof.
  split.
  - reflexivity.
  - apply (annotations_processed_iff_enabled hidden_series (mkBox 0 0 100 100) 10 20
             Style_zero world_size_10).
    reflexivity.
Defined.

End FixtureFacts.

Section ByteRendererFacts.
#[local] Existing Instance fixture_imports.

#[local] Existing Instance byte_renderer.

(** C3 on the byte renderer with [width = 4]: three characters fit. *)
Lemma WrapFitRune_appends_remainder_witness :
  (forall text r,
     (Box_Width (fst (MeasureText text r)) >=? 4) = (3 <? String.length text)%nat) /\
  fst (WrapFitRune "abcdefg" 4 Style_zero (mkWorld tt [])) = ["abc"; "defg"].
Proof.
  assert (Hfit : forall (text : string) (r : unit),
            (Box_Width (fst (MeasureText text r)) >=? 4)
            = (3 <? String.length text)%nat).
  { intros text r.
    change (Box_Width (fst (MeasureText text r)))
      with (Z.abs (Z.of_nat (String.length text) - 0)).
    rewrite Z.geb_leb.
    destruct (3 <? String.length text)%nat eqn:Hlen.
    - apply Nat.ltb_lt in Hlen. apply Z.leb_le. lia.
    - apply Nat.ltb_ge in Hlen. apply Z.leb_gt. lia. }
  split.
  - exact Hfit.
  - apply (proj2 WrapFitRune_appends_remainder 4 Style_zero (mkWorld tt []) Hfit).
Defined.

End ByteRendererFacts.

(** ** More on the cascade and the projections *)

Section CascadeFacts.
Context `{Imports}.

Lemma coalesce_assoc {A : Type} (unset : A -> bool) (a b c : A) :
  coalesce unset (coalesce unset a b) c = coalesce unset a (coalesce unset b c).
Proof.
  unfold coalesce.
  destruct (unset a) eqn:Ea; [reflexivity |].
  rewrite Ea. reflexivity.
Qed.

Lemma coalesce_set {A : Type} (unset : A -> bool) (own default : A) :
  unset own = false -> coalesce unset own default = own.
Proof. unfold coalesce. intros ->. reflexivity. Qed.

Lemma coalesce_test {A : Type} (unset : A -> bool) (own default : A) :
  unset (coalesce unset own default) = unset own && unset default.
Proof.
  unfold coalesce.
  destruct (unset own) eqn:Eown; [reflexivity | exact Eown].
Qed.

(** A chain of two cascades can be taken in either grouping:
    [s.InheritFrom(d1).InheritFrom(d2)] is [s.InheritFrom(d1.InheritFrom(d2))]. *)
Theorem InheritFrom_assoc (s d1 d2 : Style) :
  InheritFrom (InheritFrom s d1) d2 = InheritFrom s (InheritFrom d1 d2).
Proof.
  rewrite (InheritFrom_coalesce (InheritFrom s d1) d2).
  rewrite (InheritFrom_coalesce s (InheritFrom d1 d2)).
  rewrite (InheritFrom_coalesce s d1), (InheritFrom_coalesce d1 d2).
  cbn [Show Padding StrokeWidth StrokeColor StrokeDashArray FillColor FontSize
       FontColor Font TextHorizontalAlign TextVerticalAlign TextWrap].
  rewrite !coalesce_assoc.
  reflexivity.
Qed.

(** A style that sets every attribute keeps them all in a cascade, whatever
    the defaults are; only [Show] is cleared. *)
Theorem InheritFrom_all_set (s d : Style) :
  all_set s = true -> InheritFrom s d = without_Show s.
Proof.
  unfold all_set.
  intros Hs.
  repeat (apply andb_prop in Hs; destruct Hs as [Hs ?]).
  repeat match goal with
         | Hneg : negb _ = true |- _ => apply negb_true_iff in Hneg
         end.
  rewrite InheritFrom_coalesce.
  unfold without_Show.
  rewrite !coalesce_set by assumption.
  reflexivity.
Qed.

(** The cascade of [s] over [d] is zero exactly when both [s] and [d] are. *)
Theorem InheritFrom_IsZero (s d : Style) :
  Style_IsZero (InheritFrom s d) = Style_IsZero s && Style_IsZero d.
Proof.
  rewrite InheritFrom_coalesce.
  unfold Style_IsZero.
  cbn [StrokeWidth StrokeColor FillColor FontSize FontColor Font].
  rewrite !coalesce_test.
  destruct (Color_IsZero (StrokeColor s)), (Color_IsZero (FillColor s)),
    (float_eq0 (StrokeWidth s)), (Color_IsZero (FontColor s)),
    (float_eq0 (FontSize s)), (Font_is_nil (Font s));
    cbn [andb]; rewrite ?andb_false_r; reflexivity.
Qed.

(** With no default given, the accessors of the two alignments and of the
    wrap mode never return the unset value. *)
Theorem enum_accessors_never_unset (s : Style) :
  GetTextHorizontalAlign s [] <> TextHorizontalAlignUnset /\
  GetTextVerticalAlign s [] <> TextVerticalAlignUnset /\
  GetTextWrap s [] <> TextWrapUnset.
Proof.
  unfold GetTextHorizontalAlign, GetTextVerticalAlign, GetTextWrap, first_or.
  repeat split.
  - destruct (TextHorizontalAlign s =? TextHorizontalAlignUnset) eqn:E;
      [discriminate | apply Z.eqb_neq, E].
  - destruct (TextVerticalAlign s =? TextVerticalAlignUnset) eqn:E;
      [discriminate | apply Z.eqb_neq, E].
  - destruct (TextWrap s =? TextWrapUnset) eqn:E;
      [discriminate | apply Z.eqb_neq, E].
Qed.

(** The stroke, fill and text projections take disjoint parts of a style:
    projecting twice on the same part changes nothing, the stroke and the
    fill parts of the fill-and-stroke projection are those of the style, and
    projecting on the text part and then on the fill-and-stroke part (or the
    other way round) leaves the zero style. *)
Theorem projections_compose (s : Style) :
  GetStrokeOptions (GetFillAndStrokeOptions s) = GetStrokeOptions s /\
  GetFillOptions (GetFillAndStrokeOptions s) = GetFillOptions s /\
  GetFillAndStrokeOptions (GetFillAndStrokeOptions s) = GetFillAndStrokeOptions s /\
  GetTextOptions (GetTextOptions s) = GetTextOptions s /\
  GetTextOptions (GetFillAndStrokeOptions s) = Style_zero /\
  GetFillAndStrokeOptions (GetTextOptions s) = Style_zero /\
  GetFillOptions (GetStrokeOptions s) = Style_zero /\
  GetStrokeOptions (GetFillOptions s) = Style_zero.
Proof. repeat split; reflexivity. Qed.

(** When the zero colour and the zero box test as zero, the cascade of the
    text projection of [s] over [d] takes the stroke, the fill and the padding
    from [d] alone and the text attributes from [s] first: it is the cascade
    of [s] over [d] in the text attributes and [d] in the others. *)
Theorem InheritFrom_GetTextOptions (s d : Style) :
  Color_IsZero Color_zero = true ->
  Box_IsZero Box_zero = true ->
  InheritFrom (GetTextOptions s) d =
  {| Show := false;
     Padding := Padding d;
     StrokeWidth := StrokeWidth d;
     StrokeColor := StrokeColor d;
     StrokeDashArray := StrokeDashArray d;
     FillColor := FillColor d;
     FontSize := FontSize (InheritFrom s d);
     FontColor := FontColor (InheritFrom s d);
     Font := Font (InheritFrom s d);
     TextHorizontalAlign := TextHorizontalAlign (InheritFrom s d);
     TextVerticalAlign := TextVerticalAlign (InheritFrom s d);
     TextWrap := TextWrap (InheritFrom s d) |}.
Proof.
  intros Hcolor Hbox.
  rewrite (InheritFrom_coalesce (GetTextOptions s) d), (InheritFrom_coalesce s d).
  cbn [GetTextOptions Show Padding StrokeWidth StrokeColor StrokeDashArray FillColor
       FontSize FontColor Font TextHorizontalAlign TextVerticalAlign TextWrap].
  rewrite !(coalesce_unset Color_IsZero Color_zero) by exact Hcolor.
  rewrite (coalesce_unset Box_IsZero Box_zero) by exact Hbox.
  reflexivity.
Qed.

End CascadeFacts.

Section UTF8Facts.

Lemma utf8_lead_shape (b : Z) (sz : nat) (lo hi : Z) :
  utf8_lead b = Some (sz, lo, hi) ->
  (sz = 2 \/ sz = 3 \/ sz = 4)%nat /\ 128 <= lo.
Proof.
  unfold utf8_lead.
  repeat match goal with
         | |- context [if ?c then _ else _] => destruct c
         end;
    intros Heq; inversion Heq; subst; split; auto; lia.
Qed.

Lemma newline_not_between (lo hi : Z) :
  128 <= lo -> between lo hi (byte_val (ascii_of_nat 10)) = false.
Proof.
  intros Hlo. unfold between.
  change (byte_val (ascii_of_nat 10)) with 10.
  apply andb_false_iff. left. apply Z.leb_gt. lia.
Qed.

(** A newline after a text never completes a sequence the text leaves
    unfinished: the first code point is decoded as without it. *)
Lemma DecodeRune_newline (a0 : ascii) (rest tail : string) :
  DecodeRune a0 (rest +:+ String (ascii_of_nat 10) tail) = DecodeRune a0 rest.
Proof.
  unfold DecodeRune.
  destruct (byte_val a0 <? 128); [reflexivity |].
  destruct (utf8_lead (byte_val a0)) as [[[sz lo] hi] |] eqn:Hlead; [| reflexivity].
  destruct (utf8_lead_shape _ _ _ _ Hlead) as [Hsz Hlo].
  pose proof (newline_not_between lo hi Hlo) as Hnl.
  pose proof (newline_not_between 128 191 (Z.le_refl 128)) as Hnl'.
  destruct Hsz as [-> | [-> | ->]];
    destruct rest as [| a1 [| a2 [| a3 rest3]]];
    cbn [String.append String.length Nat.sub Nat.ltb Nat.leb negb];
    rewrite ?Hnl, ?Hnl'; cbn [negb];
    repeat match goal with
           | |- context [if negb (between ?l ?h (byte_val ?a)) then _ else _] =>
             destruct (between l h (byte_val a))
           end;
    cbn [negb Nat.leb]; rewrite ?Hnl, ?Hnl'; cbn [negb]; try reflexivity;
    match goal with
    | |- context [if ?c then _ else _] => destruct c; reflexivity
    end.
Qed.

Lemma DecodeRune_size (a0 : ascii) (rest : string) :
  (Nat.pred (snd (DecodeRune a0 rest)) <= String.length rest)%nat.
Proof.
  unfold DecodeRune.
  destruct (byte_val a0 <? 128); [cbn; lia |].
  destruct (utf8_lead (byte_val a0)) as [[[sz lo] hi] |] eqn:Hlead; [| cbn; lia].
  destruct (utf8_lead_shape _ _ _ _ Hlead) as [Hsz _].
  destruct Hsz as [-> | [-> | ->]];
    destruct rest as [| a1 [| a2 [| a3 rest3]]];
    cbn [String.length Nat.sub Nat.ltb Nat.leb negb];
    repeat match goal with
           | |- context [if negb (between ?l ?h (byte_val ?a)) then _ else _] =>
             destruct (between l h (byte_val a))
           end;
    cbn; lia.
Qed.

Lemma runes_from_newline (text tail : string) :
  forall skip : nat,
    (skip <= String.length text)%nat ->
    runes_from skip (text +:+ String (ascii_of_nat 10) tail) =
    runes_from skip text ++ 10 :: runes tail.
Proof.
  induction text as [| a rest IH]; intros skip Hskip.
  - cbn [String.length] in Hskip.
    assert (skip = 0%nat) as -> by lia.
    reflexivity.
  - cbn [String.append runes_from].
    destruct skip as [| k].
    + rewrite DecodeRune_newline.
      destruct (DecodeRune a rest) as [c size] eqn:Hdec.
      rewrite IH.
      * reflexivity.
      * pose proof (DecodeRune_size a rest) as Hsize.
        rewrite Hdec in Hsize. exact Hsize.
    + apply IH. cbn [String.length] in Hskip. lia.
Qed.

End UTF8Facts.

(** ** More on strings and [Trim] *)

Section StringFacts2.

Lemma append_nil_r (s : string) : s +:+ "" = s.
Proof. induction s as [| a s IH]; cbn; [| rewrite IH]; reflexivity. Qed.

Lemma append_assoc (s t u : string) : (s +:+ t) +:+ u = s +:+ t +:+ u.
Proof. induction s as [| a s IH]; cbn; [| rewrite IH]; reflexivity. Qed.

Lemma Join_cons_empty (x : string) (l : list string) :
  Join (x :: l) "" = x +:+ Join l "".
Proof.
  destruct l as [| y l]; cbn [Join String.append].
  - rewrite append_nil_r. reflexivity.
  - reflexivity.
Qed.

Lemma Join_app_empty (l1 l2 : list string) :
  Join (l1 ++ l2) "" = Join l1 "" +:+ Join l2 "".
Proof.
  induction l1 as [| x l1 IH].
  - reflexivity.
  - change ((x :: l1) ++ l2) with (x :: (l1 ++ l2)).
    rewrite !Join_cons_empty, IH, append_assoc. reflexivity.
Qed.

Lemma trim_left_split (s : string) :
  exists pre, s = pre +:+ trim_left s /\ all_cutset pre = true.
Proof.
  induction s as [| a rest [pre [Hsplit Hpre]]].
  - exists "". split; reflexivity.
  - cbn [trim_left]. destruct (in_cutset a) eqn:Ha.
    + exists (String a pre). split.
      * cbn [String.append]. rewrite <- Hsplit. reflexivity.
      * cbn [all_cutset]. rewrite Ha, Hpre. reflexivity.
    + exists "". split; reflexivity.
Qed.

Lemma trim_right_split (s : string) :
  exists post, s = trim_right s +:+ post /\ all_cutset post = true.
Proof.
  induction s as [| a rest [post [Hsplit Hpost]]].
  - exists "". split; reflexivity.
  - cbn [trim_right]. destruct (trim_right rest) as [| b t] eqn:Hrest.
    + destruct (in_cutset a) eqn:Ha.
      * exists (String a rest). split; [reflexivity |].
        cbn [all_cutset]. rewrite Ha. cbn [andb].
        rewrite Hsplit. exact Hpost.
      * exists rest. split; [reflexivity |].
        rewrite Hsplit. exact Hpost.
    + exists post. split; [| exact Hpost].
      change (String a rest = String a (String b t +:+ post)).
      f_equal. exact Hsplit.
Qed.

(** [Trim] removes a run of cutset bytes from each end of the text, and
    nothing else; what it returns has no cutset byte at either end. *)
Theorem Trim_splits (value : string) :
  exists pre post,
    value = pre +:+ Trim value +:+ post /\
    all_cutset pre = true /\ all_cutset post = true /\
    trimmed (Trim value) = true.
Proof.
  destruct (trim_left_split value) as [pre [Hleft Hpre]].
  destruct (trim_right_split (trim_left value)) as [post [Hright Hpost]].
  exists pre, post. unfold Trim.
  rewrite <- Hright, <- Hleft.
  repeat split; try assumption.
  apply Trim_trimmed.
Qed.

Lemma trim_left_clean (s : string) : starts_clean s = true -> trim_left s = s.
Proof.
  destruct s as [| a rest]; [reflexivity |].
  cbn [starts_clean trim_left]. intros Ha.
  apply negb_true_iff in Ha. rewrite Ha. reflexivity.
Qed.

Lemma trim_right_clean (s : string) : ends_clean s = true -> trim_right s = s.
Proof.
  induction s as [| a rest IH]; [reflexivity |].
  destruct rest as [| b t].
  - cbn [ends_clean trim_right]. intros Ha.
    apply negb_true_iff in Ha. rewrite Ha. reflexivity.
  - intros Hclean.
    change (ends_clean (String a (String b t))) with (ends_clean (String b t)) in Hclean.
    change (trim_right (String a (String b t)))
      with (match trim_right (String b t) with
            | EmptyString => if in_cutset a then EmptyString else String a EmptyString
            | t' => String a t'
            end).
    rewrite (IH Hclean). reflexivity.
Qed.

(** [Trim] changes a text only if it starts or ends with a cutset byte; so
    trimming twice is trimming once. *)
Theorem Trim_fixed (value : string) :
  (trimmed value = true -> Trim value = value) /\
  Trim (Trim value) = Trim value.
Proof.
  assert (Hfixed : forall s, trimmed s = true -> Trim s = s).
  { intros s Hs. unfold trimmed in Hs. apply andb_prop in Hs as [Hstart Hend].
    unfold Trim. rewrite (trim_left_clean s Hstart). apply trim_right_clean, Hend. }
  split.
  - apply Hfixed.
  - apply Hfixed, Trim_trimmed.
Qed.

End StringFacts2.

(** ** More on pushing styles and on wrapping *)

Section WrapFacts.
Context `{Imports} {R : Type} `{!Renderer R}.

(** The full push is the drawing push followed by the text push. *)
Theorem WriteToRenderer_composes (s : Style) (w : world R) :
  WriteToRenderer s w =
  (WriteDrawingOptionsToRenderer s ;;; WriteTextOptionsToRenderer s) w.
Proof. reflexivity. Qed.

(** Pushing a projection of a style is pushing the style: the drawing push
    reads the fill and stroke part only and the text push the text part
    only. *)
Theorem push_of_projection (s : Style) (w : world R) :
  WriteDrawingOptionsToRenderer (GetFillAndStrokeOptions s) w =
    WriteDrawingOptionsToRenderer s w /\
  WriteTextOptionsToRenderer (GetTextOptions s) w = WriteTextOptionsToRenderer s w.
Proof. split; reflexivity. Qed.

Lemma WriteToRenderer_log (s : Style) (w : world R) :
  calls (snd (WriteToRenderer s w)) = calls w ++ style_calls s.
Proof.
  unfold WriteToRenderer, style_calls.
  rewrite !bind_run, !command_run. cbn [fst snd calls].
  rewrite <- !app_assoc. reflexivity.
Qed.

Lemma for_range_app {A S : Type} (body : S -> A -> M R S) (l1 l2 : list A) :
  forall acc w,
    for_range body acc (l1 ++ l2) w =
    for_range body (fst (for_range body acc l1 w)) l2 (snd (for_range body acc l1 w)).
Proof.
  induction l1 as [| a l1 IH]; intros acc w.
  - reflexivity.
  - change ((a :: l1) ++ l2) with (a :: (l1 ++ l2)).
    cbn [for_range]. rewrite !bind_run. apply IH.
Qed.

(** The lines already committed do not influence the loop of
    [WrapFitWord]: they stay in front of the lines it commits. *)
Lemma WrapFitWord_body_prefix (width : Z) (pre out : list string) (line word : string)
    (c : rune) (w : world R) :
  WrapFitWord_body width (mkWordVars (pre ++ out) line word) c w =
  (mkWordVars
     (pre ++ wv_output (fst (WrapFitWord_body width (mkWordVars out line word) c w)))
     (wv_line (fst (WrapFitWord_body width (mkWordVars out line word) c w)))
     (wv_word (fst (WrapFitWord_body width (mkWordVars out line word) c w))),
   snd (WrapFitWord_body width (mkWordVars out line word) c w)).
Proof.
  unfold WrapFitWord_body. cbn [wv_output wv_line wv_word].
  destruct (c =? 10).
  - cbn. rewrite <- app_assoc. reflexivity.
  - unfold measure. rewrite !bind_run, !query_run. cbn [fst snd].
    destruct (Box_Width _ >=? width); [| destruct ((c =? 32) || (c =? 9))]; cbn.
    + rewrite <- app_assoc. reflexivity.
    + reflexivity.
    + reflexivity.
Qed.

Lemma WrapFitWord_loop_prefix (width : Z) (pre : list string) (l : list rune) :
  forall (out : list string) (line word : string) (w : world R),
    for_range (WrapFitWord_body width) (mkWordVars (pre ++ out) line word) l w =
    (mkWordVars
       (pre ++ wv_output (fst (for_range (WrapFitWord_body width)
                                 (mkWordVars out line word) l w)))
       (wv_line (fst (for_range (WrapFitWord_body width) (mkWordVars out line word) l w)))
       (wv_word (fst (for_range (WrapFitWord_body width) (mkWordVars out line word) l w))),
     snd (for_range (WrapFitWord_body width) (mkWordVars out line word) l w)).
Proof.
  induction l as [| c l IH]; intros out line word w.
  - reflexivity.
  - cbn [for_range]. rewrite !bind_run.
    rewrite WrapFitWord_body_prefix. cbn [fst snd].
    destruct (fst (WrapFitWord_body width (mkWordVars out line word) c w))
      as [out' line' word'].
    cbn [wv_output wv_line wv_word].
    apply IH.
Qed.

(** A newline in the text is a line break whatever the width: the lines of
    [before + "\n" + after] are the lines of [before] followed by the lines
    the loop of [WrapFitWord] makes of [after], on the renderer as the first
    part left it. *)
Theorem WrapFitWord_newline (before after : string) (width : Z) (style : Style)
    (w : world R) :
  fst (WrapFitWord (before +:+ newline +:+ after) width style w) =
  fst (WrapFitWord before width style w) ++
  fst (WrapFitWord_lines after width (snd (WrapFitWord before width style w))).
Proof.
  unfold WrapFitWord, WrapFitWord_lines, runes, newline.
  cbn [String.append].
  rewrite runes_from_newline by lia.
  fold (runes before). fold (runes after).
  rewrite !bind_run. cbn [ret fst snd].
  rewrite for_range_app.
  set (w1 := snd (WriteToRenderer style w)).
  destruct (for_range (WrapFitWord_body width) (mkWordVars [] "" "") (runes before) w1)
    as [[out line word] w2].
  cbn [fst snd for_range wv_output wv_line wv_word].
  rewrite bind_run.
  change (WrapFitWord_body width (mkWordVars out line word) 10 w2)
    with (mkWordVars (out ++ [Trim (line +:+ word)]) "" "", w2).
  cbn [fst snd].
  replace (mkWordVars (out ++ [Trim (line +:+ word)]) "" "")
    with (mkWordVars ((out ++ [Trim (line +:+ word)]) ++ []) "" "")
    by (rewrite app_nil_r; reflexivity).
  rewrite WrapFitWord_loop_prefix.
  cbn [fst snd wv_output wv_line wv_word].
  rewrite <- app_assoc. reflexivity.
Qed.

(** Each newline makes the loop of [WrapFitWord] commit a line. *)
Lemma WrapFitWord_loop_lines (width : Z) (l : list rune) :
  forall (v : word_vars) (w : world R),
    (length (wv_output v) + length (newlines l)
     <= length (wv_output (fst (for_range (WrapFitWord_body width) v l w))))%nat.
Proof.
  induction l as [| c l IH]; intros v w.
  - cbn. lia.
  - cbn [for_range]. rewrite bind_run.
    etransitivity; [| apply IH].
    unfold newlines. cbn [List.filter]. unfold WrapFitWord_body.
    destruct (c =? 10).
    + cbn. rewrite length_app. cbn. lia.
    + unfold measure. rewrite bind_run, query_run. cbn [fst snd].
      destruct (Box_Width _ >=? width); [| destruct ((c =? 32) || (c =? 9))]; cbn;
        rewrite ?length_app; cbn; lia.
Qed.

(** Each newline makes the loop of [WrapFitRune] commit a line. *)
Lemma WrapFitRune_loop_lines (width : Z) (l : list rune) :
  forall (v : list string * string) (w : world R),
    (length (fst v) + length (newlines l)
     <= length (fst (fst (for_range (WrapFitRune_body width) v l w))))%nat.
Proof.
  induction l as [| c l IH]; intros [out line] w.
  - cbn. lia.
  - cbn [for_range]. rewrite bind_run.
    etransitivity; [| apply IH].
    unfold newlines. cbn [List.filter]. unfold WrapFitRune_body.
    destruct (c =? 10).
    + cbn. rewrite length_app. cbn. lia.
    + unfold measure. rewrite bind_run, query_run. cbn [fst snd].
      destruct (Box_Width _ >=? width); cbn; rewrite ?length_app; cbn; lia.
Qed.

Lemma appendLast_length (lines : list string) (text : string) :
  length (appendLast lines text) = Nat.max 1 (length lines).
Proof.
  unfold appendLast.
  destruct lines as [| x l]; [reflexivity |].
  cbn [length Nat.eqb]. rewrite length_insert. cbn [length]. lia.
Qed.

(** The wrapping functions never return an empty list. [WrapFitWord]
    returns at least one line more than the text has newlines; [WrapFitRune]
    returns at least as many lines as the text has newlines, because the text
    after the last newline joins the line before it. *)
Theorem wrap_line_counts (value : string) (width : Z) (style : Style)
    (wrapOption : textWrap) (w : world R) :
  (1 + length (newlines (runes value))
   <= length (fst (WrapFitWord value width style w)))%nat /\
  (Nat.max 1 (length (newlines (runes value)))
   <= length (fst (WrapFitRune value width style w)))%nat /\
  (1 <= length (fst (WrapFit value width style wrapOption w)))%nat.
Proof.
  assert (Hword : forall w',
    (1 + length (newlines (runes value))
     <= length (fst (WrapFitWord value width style w')))%nat).
  { intros w'. unfold WrapFitWord. rewrite !bind_run. cbn [ret fst].
    rewrite length_app. cbn [length].
    pose proof (WrapFitWord_loop_lines width (runes value) (mkWordVars [] "" "")
                  (snd (WriteToRenderer style w'))) as Hloop.
    cbn [wv_output length] in Hloop. lia. }
  assert (Hrune : forall w',
    (Nat.max 1 (length (newlines (runes value)))
     <= length (fst (WrapFitRune value width style w')))%nat).
  { intros w'. unfold WrapFitRune, WrapFitRune_scan. rewrite !bind_run. cbn [ret fst].
    rewrite appendLast_length.
    pose proof (WrapFitRune_loop_lines width (runes value) ([], "")
                  (snd (WriteToRenderer style w'))) as Hloop.
    cbn [fst length] in Hloop. lia. }
  split; [apply Hword | split; [apply Hrune |]].
  unfold WrapFit, measure. rewrite bind_run, query_run. cbn [fst snd].
  destruct (Box_Width _ >? width); [| cbn; lia].
  destruct (wrapOption =? TextWrapRune).
  - etransitivity; [| apply Hrune]. lia.
  - destruct (wrapOption =? TextWrapWord); [| cbn; lia].
    etransitivity; [| apply Hword]. lia.
Qed.

(** The loops measure once for each code point that is not a newline. *)
Lemma WrapFitWord_loop_log (width : Z) (l : list rune) :
  forall (v : word_vars) (w : world R),
    exists texts,
      calls (snd (for_range (WrapFitWord_body width) v l w)) =
        calls w ++ List.map CallMeasureText texts /\
      length texts = length (not_newlines l).
Proof.
  induction l as [| c l IH]; intros v w.
  - exists []. cbn. rewrite app_nil_r. split; reflexivity.
  - cbn [for_range]. rewrite bind_run.
    destruct (IH (fst (WrapFitWord_body width v c w))
                 (snd (WrapFitWord_body width v c w))) as [texts [Hlog Hlen]].
    rewrite Hlog. clear Hlog.
    unfold not_newlines. cbn [List.filter]. unfold WrapFitWord_body.
    destruct (c =? 10); cbn [negb].
    + exists texts. split; [reflexivity | exact Hlen].
    + exists ((wv_line v +:+ wv_word v +:+ string_of_rune c) :: texts).
      unfold measure. rewrite bind_run, query_run. cbn [fst snd].
      split; [| cbn [length]; fold (not_newlines l); lia].
      destruct (Box_Width _ >=? width); [| destruct ((c =? 32) || (c =? 9))];
        cbn [ret snd calls List.map]; rewrite <- app_assoc; reflexivity.
Qed.

Lemma WrapFitRune_loop_log (width : Z) (l : list rune) :
  forall (v : list string * string) (w : world R),
    exists texts,
      calls (snd (for_range (WrapFitRune_body width) v l w)) =
        calls w ++ List.map CallMeasureText texts /\
      length texts = length (not_newlines l).
Proof.
  induction l as [| c l IH]; intros [out line] w.
  - exists []. cbn. rewrite app_nil_r. split; reflexivity.
  - cbn [for_range]. rewrite bind_run.
    destruct (IH (fst (WrapFitRune_body width (out, line) c w))
                 (snd (WrapFitRune_body width (out, line) c w))) as [texts [Hlog Hlen]].
    rewrite Hlog. clear Hlog.
    unfold not_newlines. cbn [List.filter]. unfold WrapFitRune_body.
    destruct (c =? 10); cbn [negb].
    + exists texts. split; [reflexivity | exact Hlen].
    + exists ((line +:+ string_of_rune c) :: texts).
      unfold measure. rewrite bind_run, query_run. cbn [fst snd].
      split; [| cbn [length]; fold (not_newlines l); lia].
      destruct (Box_Width _ >=? width);
        cbn [ret snd calls List.map]; rewrite <- app_assoc; reflexivity.
Qed.

(** [WrapFitWord] and [WrapFitRune] write the style to the renderer first
    (the seven setters, once) and then only measure: one [MeasureText] call
    for each code point of the text that is not a newline. *)
Theorem wrap_calls (value : string) (width : Z) (style : Style) (w : world R) :
  (exists texts,
     calls (snd (WrapFitWord value width style w)) =
       calls w ++ style_calls style ++ List.map CallMeasureText texts /\
     length texts = length (not_newlines (runes value))) /\
  (exists texts,
     calls (snd (WrapFitRune value width style w)) =
       calls w ++ style_calls style ++ List.map CallMeasureText texts /\
     length texts = length (not_newlines (runes value))).
Proof.
  split.
  - destruct (WrapFitWord_loop_log width (runes value) (mkWordVars [] "" "")
                (snd (WriteToRenderer style w))) as [texts [Hlog Hlen]].
    exists texts. split; [| exact Hlen].
    unfold WrapFitWord. rewrite !bind_run. cbn [ret snd].
    rewrite Hlog, WriteToRenderer_log, <- app_assoc. reflexivity.
  - destruct (WrapFitRune_loop_log width (runes value) ([], "")
                (snd (WriteToRenderer style w))) as [texts [Hlog Hlen]].
    exists texts. split; [| exact Hlen].
    unfold WrapFitRune, WrapFitRune_scan. rewrite !bind_run. cbn [ret snd].
    rewrite Hlog, WriteToRenderer_log, <- app_assoc. reflexivity.
Qed.

(** The loop of [WrapFitRune] keeps every code point but the newlines, in
    order, in the lines committed and the unfinished line. *)
Lemma WrapFitRune_loop_text (width : Z) (l : list rune) :
  forall (v : list string * string) (w : world R),
    Join (fst (fst (for_range (WrapFitRune_body width) v l w))) ""
    +:+ snd (fst (for_range (WrapFitRune_body width) v l w)) =
    (Join (fst v) "" +:+ snd v)
    +:+ Join (List.map string_of_rune (not_newlines l)) "".
Proof.
  induction l as [| c l IH]; intros [out line] w.
  - cbn. rewrite append_nil_r. reflexivity.
  - cbn [for_range]. rewrite bind_run, IH. clear IH.
    unfold not_newlines. cbn [List.filter]. unfold WrapFitRune_body.
    destruct (c =? 10); cbn [negb].
    + cbn [ret fst snd]. rewrite Join_app_empty. cbn [Join].
      rewrite append_nil_r. reflexivity.
    + unfold measure. rewrite bind_run, query_run. cbn [fst snd List.map].
      rewrite Join_cons_empty.
      destruct (Box_Width _ >=? width); cbn [ret fst snd].
      * rewrite Join_app_empty. cbn [Join]. rewrite !append_assoc. reflexivity.
      * rewrite !append_assoc. reflexivity.
Qed.

Lemma appendLast_Join (lines : list string) (text : string) :
  Join (appendLast lines text) "" = Join lines "" +:+ text.
Proof.
  rewrite appendLast_last.
  destruct lines as [| x l]; [reflexivity |].
  assert (Hsplit : Join (x :: l) "" =
                   Join (List.removelast (x :: l)) "" +:+ List.last (x :: l) "").
  { rewrite (app_removelast_last "" (l := x :: l)) at 1 by discriminate.
    rewrite Join_app_empty. reflexivity. }
  rewrite Hsplit, Join_app_empty. cbn [Join].
  rewrite append_assoc. reflexivity.
Qed.

(** [WrapFitRune] loses no code point but the newlines and adds none: the
    lines it returns, put end to end, are the code points of the text other
    than the newlines, each written back as a string, in order. *)
Theorem WrapFitRune_keeps_text (value : string) (width : Z) (style : Style)
    (w : world R) :
  Join (fst (WrapFitRune value width style w)) "" =
  Join (List.map string_of_rune (not_newlines (runes value))) "".
Proof.
  unfold WrapFitRune, WrapFitRune_scan. rewrite !bind_run. cbn [ret fst].
  rewrite appendLast_Join, WrapFitRune_loop_text.
  reflexivity.
Qed.

End WrapFacts.

(** ** More on annotation series *)

Section SeriesFacts.
Context `{Imports} {R : Type} `{!Renderer R} `{!Drawing R}.

(** A series without annotations measures as the box [Measure] starts
    from, whose left and top edges are [MaxInt32] and whose right and bottom
    edges are [0], and nothing is called, whatever the style of the series. *)
Theorem Measure_Render_no_annotations (series : AnnotationSeries) (canvasBox : Box)
    (xrange yrange : Range) (defaults : Style) (w : world R) :
  Annotations series = [] ->
  Measure series canvasBox xrange yrange defaults w =
    ({| Top := MaxInt32; Left := MaxInt32; Right := 0; Bottom := 0 |}, w) /\
  Render series canvasBox xrange yrange defaults w = (tt, w).
Proof.
  intros Hnone. unfold Measure, Render. rewrite Hnone.
  destruct (series_enabled series); split; reflexivity.
Qed.

Lemma Box_grow_within (news : list Box) :
  forall box : Box,
    Box_within (fold_left Box_grow news box) box /\
    List.Forall (Box_within (fold_left Box_grow news box)) news.
Proof.
  induction news as [| ab news IH]; intros box; cbn [fold_left].
  - split; [unfold Box_within; lia | constructor].
  - destruct (IH (Box_grow box ab)) as [Hgrown Hnews].
    unfold Box_within in Hgrown. cbn [Box_grow Top Left Right Bottom] in Hgrown.
    split; [| constructor; [| exact Hnews]]; unfold Box_within; lia.
Qed.

Lemma Measure_loops (canvasBox : Box) (xrange yrange : Range) (seriesStyle : Style)
    (l : list Value2) :
  (forall a b, MinInt a b = Z.min a b) ->
  (forall a b, MaxInt a b = Z.max a b) ->
  forall (box : Box) (boxes : list Box) (w : world R),
    exists news,
      fst (for_range (Measure_boxes_body canvasBox xrange yrange seriesStyle) boxes l w)
        = boxes ++ news /\
      fst (for_range (Measure_body canvasBox xrange yrange seriesStyle) box l w)
        = fold_left Box_grow news box /\
      snd (for_range (Measure_body canvasBox xrange yrange seriesStyle) box l w)
        = snd (for_range (Measure_boxes_body canvasBox xrange yrange seriesStyle) boxes l w) /\
      length news = length l.
Proof.
  intros Hmin Hmax.
  induction l as [| a l IH]; intros box boxes w.
  - exists []. cbn. rewrite app_nil_r. repeat split; reflexivity.
  - cbn [for_range]. rewrite !bind_run.
    set (ab := fst (Draw_MeasureAnnotation canvasBox (annotation_style seriesStyle a)
                      (annotation_lx canvasBox xrange a)
                      (annotation_ly canvasBox yrange a) (Label a) (rstate w))).
    assert (Hstep : Measure_body canvasBox xrange yrange seriesStyle box a w =
                    (Box_grow box ab,
                     snd (Measure_boxes_body canvasBox xrange yrange seriesStyle boxes a w))).
    { unfold Measure_body, Measure_boxes_body.
      rewrite !bind_run, !query_run. cbn [ret fst snd].
      rewrite !Hmin, !Hmax. reflexivity. }
    assert (Hstep' : fst (Measure_boxes_body canvasBox xrange yrange seriesStyle boxes a w)
                     = boxes ++ [ab]).
    { unfold Measure_boxes_body. rewrite bind_run, query_run. reflexivity. }
    rewrite Hstep, Hstep'. cbn [fst snd].
    destruct (IH (Box_grow box ab) (boxes ++ [ab])
                 (snd (Measure_boxes_body canvasBox xrange yrange seriesStyle boxes a w)))
      as [news [Hboxes [Hbox [Hworld Hlen]]]].
    exists (ab :: news).
    rewrite Hboxes, <- app_assoc.
    repeat split; [exact Hbox | exact Hworld | cbn [length]; lia].
Qed.

(** When [MinInt] and [MaxInt] are the minimum and the maximum, [Measure]
    returns the smallest box that holds the box it starts from and the boxes
    [Draw.MeasureAnnotation] returned for the annotations; so every one of
    these boxes lies within it, its top and left edges are at most
    [MaxInt32], and its right and bottom edges are never negative. *)
Theorem Measure_bounds (series : AnnotationSeries) (canvasBox : Box)
    (xrange yrange : Range) (defaults : Style) (w : world R) :
  (forall a b, MinInt a b = Z.min a b) ->
  (forall a b, MaxInt a b = Z.max a b) ->
  let box := fst (Measure series canvasBox xrange yrange defaults w) in
  let boxes := fst (Measure_boxes series canvasBox xrange yrange defaults w) in
  box = fold_left Box_grow boxes Measure_initial_box /\
  List.Forall (Box_within box) boxes /\
  Top box <= MaxInt32 /\ Left box <= MaxInt32 /\ 0 <= Right box /\ 0 <= Bottom box /\
  length boxes = (if series_enabled series then length (Annotations series) else 0%nat) /\
  snd (Measure series canvasBox xrange yrange defaults w) =
    snd (Measure_boxes series canvasBox xrange yrange defaults w).
Proof.
  intros Hmin Hmax box boxes.
  assert (Hfold : box = fold_left Box_grow boxes Measure_initial_box /\
                  length boxes =
                    (if series_enabled series then length (Annotations series) else 0%nat) /\
                  snd (Measure series canvasBox xrange yrange defaults w) =
                    snd (Measure_boxes series canvasBox xrange yrange defaults w)).
  { subst box boxes. unfold Measure, Measure_boxes.
    destruct (series_enabled series); [| repeat split; reflexivity].
    destruct (Measure_loops canvasBox xrange yrange
                (InheritFrom (Series_Style series) (annotationStyleDefaults defaults))
                (Annotations series) Hmin Hmax Measure_initial_box [] w)
      as [news [Hboxes [Hbox [Hworld Hlen]]]].
    rewrite Hboxes, Hbox, Hworld. cbn [app]. repeat split. exact Hlen. }
  destruct Hfold as [Hbox [Hlen Hworld]].
  destruct (Box_grow_within boxes Measure_initial_box) as [Hinit Hall].
  rewrite <- Hbox in Hinit, Hall.
  unfold Box_within in Hinit. cbn [Measure_initial_box Top Left Right Bottom] in Hinit.
  repeat split; try assumption; lia.
Qed.

(** Of the chart defaults [Measure] and [Render] read the font, the stroke
    colour and the stroke width only: two defaults that agree on these give
    the same results and the same calls. *)
Theorem series_reads_three_defaults (series : AnnotationSeries) (canvasBox : Box)
    (xrange yrange : Range) (d1 d2 : Style) (w : world R) :
  Font d1 = Font d2 ->
  StrokeColor d1 = StrokeColor d2 ->
  StrokeWidth d1 = StrokeWidth d2 ->
  Measure series canvasBox xrange yrange d1 w =
    Measure series canvasBox xrange yrange d2 w /\
  Render series canvasBox xrange yrange d1 w =
    Render series canvasBox xrange yrange d2 w.
Proof.
  intros Hfont Hcolor Hwidth.
  assert (Hsame : annotationStyleDefaults d1 = annotationStyleDefaults d2).
  { unfold annotationStyleDefaults. rewrite Hfont, Hcolor, Hwidth. reflexivity. }
  unfold Measure, Render. rewrite Hsame. split; reflexivity.
Qed.

(** The style an annotation is measured and drawn with is the cascade of
    its own style over the style of the series over the annotation defaults,
    in either grouping, and it never has [Show] set. *)
Theorem annotation_style_chain (series : AnnotationSeries) (defaults : Style)
    (a : Value2) :
  let seriesStyle :=
    InheritFrom (Series_Style series) (annotationStyleDefaults defaults) in
  annotation_style seriesStyle a =
    InheritFrom (InheritFrom (Value2_Style a) (Series_Style series))
                (annotationStyleDefaults defaults) /\
  Show (annotation_style seriesStyle a) = false.
Proof.
  intros seriesStyle. unfold annotation_style, seriesStyle.
  rewrite InheritFrom_assoc. split; reflexivity.
Qed.

End SeriesFacts.

Section AppendLastFacts.

(** [appendLast] adds no line to a list that has one: the text goes to the
    end of the last line, the lines before it stay as they are, and an empty
    list becomes the one line [text]. *)
Theorem appendLast_extends (lines : list string) (text : string) :
  length (appendLast lines text) = Nat.max 1 (length lines) /\
  Join (appendLast lines text) "" = Join lines "" +:+ text /\
  List.removelast (appendLast lines text) = List.removelast lines.
Proof.
  split; [apply appendLast_length | split; [apply appendLast_Join |]].
  rewrite appendLast_last.
  destruct lines as [| x l]; [reflexivity |].
  apply removelast_last.
Qed.

End AppendLastFacts.

(** ** The further properties on the fixture *)

Section FixtureFacts2.
#[local] Existing Instance fixture_imports.
#[local] Existing Instance fixed_pitch_renderer.
#[local] Existing Instance fixed_pitch_drawing.

(** [InheritFrom_all_set] on [style_full]. *)
Lemma InheritFrom_all_set_witness :
  all_set style_full = true /\
  InheritFrom style_full style_font_size_10 = without_Show style_full.
Proof.
  split.
  - reflexivity.
  - apply (InheritFrom_all_set style_full style_font_size_10). reflexivity.
Defined.

(** [InheritFrom_GetTextOptions] on the fixture, where the zero colour and
    the zero box test as zero. *)
Lemma InheritFrom_GetTextOptions_witness :
  Color_IsZero Color_zero = true /\
  Box_IsZero Box_zero = true /\
  StrokeColor (InheritFrom (GetTextOptions style_full) style_shown) = RGBA 255 0 0 255 /\
  Font (InheritFrom (GetTextOptions style_full) style_shown) = Some "Roboto".
Proof.
  split; [reflexivity | split; [reflexivity |]].
  rewrite (InheritFrom_GetTextOptions style_full style_shown eq_refl eq_refl).
  split; reflexivity.
Defined.

(** [Trim_fixed] on a text with a space inside only. *)
Lemma Trim_fixed_witness :
  trimmed "a b" = true /\ Trim "a b" = "a b".
Proof.
  split.
  - reflexivity.
  - apply (proj1 (Trim_fixed "a b")). reflexivity.
Defined.

(** [Measure_Render_no_annotations] on a shown series without annotations. *)
Lemma Measure_Render_no_annotations_witness :
  Annotations (mkAnnotationSeries "none" style_shown 0 []) = [] /\
  Measure (mkAnnotationSeries "none" style_shown 0 []) (mkBox 0 0 100 100) 10 20
    Style_zero world_size_10 =
    (mkBox MaxInt32 MaxInt32 0 0, world_size_10).
Proof.
  split.
  - reflexivity.
  - apply (Measure_Render_no_annotations (mkAnnotationSeries "none" style_shown 0 [])
             (mkBox 0 0 100 100) 10 20 Style_zero world_size_10).
    reflexivity.
Defined.

(** [Measure_bounds] on [plain_series]: the labels are 4 and 3 code points
    wide, at the same position. *)
Lemma Measure_bounds_witness :
  (forall a b, MinInt a b = Z.min a b) /\
  (forall a b, MaxInt a b = Z.max a b) /\
  fst (Measure_boxes plain_series (mkBox 0 0 100 100) 10 20 Style_zero world_size_10) =
    [mkBox 80 10 14 81; mkBox 80 10 13 81] /\
  fst (Measure plain_series (mkBox 0 0 100 100) 10 20 Style_zero world_size_10) =
    mkBox 80 10 14 81.
Proof.
  assert (Hmin : forall a b, MinInt a b = Z.min a b) by reflexivity.
  assert (Hmax : forall a b, MaxInt a b = Z.max a b) by reflexivity.
  split; [exact Hmin | split; [exact Hmax | split; [reflexivity |]]].
  destruct (Measure_bounds plain_series (mkBox 0 0 100 100) 10 20 Style_zero
              world_size_10 Hmin Hmax) as [Hbox _].
  rewrite Hbox. reflexivity.
Defined.

(** [series_reads_three_defaults] on two defaults that differ in the font
    size only. *)
Lemma series_reads_three_defaults_witness :
  Font Style_zero = Font style_font_size_10 /\
  StrokeColor Style_zero = StrokeColor style_font_size_10 /\
  StrokeWidth Style_zero = StrokeWidth style_font_size_10 /\
  Measure plain_series (mkBox 0 0 100 100) 10 20 Style_zero world_size_10 =
    Measure plain_series (mkBox 0 0 100 100) 10 20 style_font_size_10 world_size_10.
Proof.
  split; [reflexivity | split; [reflexivity | split; [reflexivity |]]].
  exact (proj1 (series_reads_three_defaults plain_series (mkBox 0 0 100 100) 10 20
                  Style_zero style_font_size_10 world_size_10
                  eq_refl eq_refl eq_refl)).
Defined.

(** In rune mode the text after a newline joins the line before it. *)
Example WrapFitRune_newline_joined :
  fst (WrapFitRune ("ab" +:+ newline +:+ "cd") 9 Style_zero world_size_10) = ["abcd"] /\
  fst (WrapFitWord ("ab" +:+ newline +:+ "cd") 9 Style_zero world_size_10) = ["ab"; "cd"].
Proof. vm_compute. split; reflexivity. Qed.

End FixtureFacts2.
